(** * Walmart review scraper: the submit page

    A shallow embedding of the two variants of the Next.js page of the
    repository, [src/frontend/pages/index.tsx] and the second, unnamed copy
    of the page ([src/unnamed/part_000]), and the properties of their
    identifier check, submit handler, response types and star rendering.

    JavaScript strings are sequences of UTF-16 code units, numbers are the
    special values and the finite ones (as rationals: [Math.floor], [% 1]
    and comparisons are exact on doubles), a parsed response body is a JSON
    tree, and the handler runs in a small state-and-exception monad over the
    React state of the page and the log of its effects.  The form around
    the handler is modelled with the constraints its number input declares.
    The server behind the endpoint is not part of these sources: where a
    property is about it, the module [Engine] follows the specification. *)

From Stdlib Require Import String Ascii DecimalString.
From Stdlib Require Import List Bool Arith NArith ZArith QArith Qround Lia.
Import ListNotations.

Close Scope Q_scope.
Open Scope nat_scope.

Set Implicit Arguments.

(* ================================================================= *)
(** ** JavaScript strings *)

Module JsString.

(** A string is its list of UTF-16 code units; [length] is [.length]. *)
Definition code_unit := N.
Definition t := list code_unit.

(** A literal of the source, given as a Rocq string of ASCII characters. *)
Definition lit (s : string) : t := map N_of_ascii (list_ascii_of_string s).
Arguments lit s%_string.

Definition eqb (a b : t) : bool :=
  if list_eq_dec N.eq_dec a b then true else false.

(** [Boolean(s)]: a string is truthy unless it is empty. *)
Definition truthy (s : t) : bool :=
  match s with [] => false | _ :: _ => true end.

Section Classes.
Local Open Scope N_scope.

(** The class [\s] of a regular expression without the [u] flag, which is
    also the set [String.prototype.trim] strips: WhiteSpace and
    LineTerminator of ECMAScript. *)
Definition isWhiteSpace (c : code_unit) : bool :=
  ((9 <=? c) && (c <=? 13))
  || (c =? 32) || (c =? 160) || (c =? 5760)
  || ((8192 <=? c) && (c <=? 8202))
  || (c =? 8232) || (c =? 8233) || (c =? 8239) || (c =? 8287)
  || (c =? 12288) || (c =? 65279).

(** The class [[\s,\n]] of the split in [handleSubmit]. *)
Definition isSeparator (c : code_unit) : bool :=
  isWhiteSpace c || (c =? 44) || (c =? 10).

(** The class [[a-zA-Z0-9]]. *)
Definition isAlnum (c : code_unit) : bool :=
  ((97 <=? c) && (c <=? 122))
  || ((65 <=? c) && (c <=? 90))
  || ((48 <=? c) && (c <=? 57)).

Definition hyphen : code_unit := 45.
Definition underscore : code_unit := 95.
Definition dquote : code_unit := 34.

End Classes.

(** [s.replace(/c/g, '')] for a single literal character [c]. *)
Definition remove_all (c : code_unit) (s : t) : t :=
  filter (fun x => negb (N.eqb x c)) s.

(** [s.match(/^[a-zA-Z0-9]+$/)] is not null: one or more characters, all of
    the class (no [m] flag, so [^] and [$] are the ends of the string). *)
Definition matches_alnum_plus (s : t) : bool :=
  truthy s && forallb isAlnum s.

Fixpoint drop_ws (s : t) : t :=
  match s with
  | c :: r => if isWhiteSpace c then drop_ws r else s
  | [] => []
  end.

(** [s.trim()]. *)
Definition trim (s : t) : t := rev (drop_ws (rev (drop_ws s))).

(** [s.split(/[\s,\n]+/)]: the pieces between the maximal runs of
    separators.  A run at the start leaves an empty first piece, a run at the
    end an empty last piece, and the empty string splits into one empty
    piece.  [in_run] says that the previous character was a separator, [cur]
    is the piece being read. *)
Fixpoint split_go (in_run : bool) (cur : t) (s : t) : list t :=
  match s with
  | [] => [cur]
  | c :: r =>
      if isSeparator c
      then (if in_run then split_go true cur r else cur :: split_go true [] r)
      else split_go false (cur ++ [c]) r
  end.

Definition split_separators (s : t) : list t := split_go false [] s.

Fixpoint prefixb (p s : t) : bool :=
  match p, s with
  | [], _ => true
  | _ :: _, [] => false
  | a :: p', b :: s' => N.eqb a b && prefixb p' s'
  end.

(** [s.includes(p)]. *)
Fixpoint includes (s p : t) : bool :=
  prefixb p s || match s with [] => false | _ :: r => includes r p end.

(** [String(n)] for a non-negative integer. *)
Definition of_N (n : N) : t :=
  lit (NilZero.string_of_uint (N.to_uint n)).

End JsString.

Definition jsstring : Type := JsString.t.

(* ================================================================= *)
(** ** The identifier check of the validating page *)

Module Validator.
Import JsString.

(** [id.replace(/-/g, '').replace(/_/g, '')] *)
Definition cleaned (id : jsstring) : jsstring :=
  remove_all underscore (remove_all hyphen id).

(** The predicate of [ids.filter(id => ...)] in [handleSubmit] of the
    validating page: [true] when the identifier is reported as invalid. *)
Definition invalidId (id : jsstring) : bool :=
  (20 <? length id) || (length id <? 6) || negb (matches_alnum_plus (cleaned id)).

Definition invalidIds (ids : list jsstring) : list jsstring :=
  filter invalidId ids.

(** The format rule in the words of the specification: strip [-] and [_];
    the stripped string has at least 6 characters, the original at most 20,
    and the stripped string is alphanumeric.  Kept apart from [invalidId] to
    be compared with it. *)
Definition spec_format_ok (id : jsstring) : Prop :=
  6 <= length (cleaned id) /\ length id <= 20 /\
  Forall (fun c => isAlnum c = true) (cleaned id).

End Validator.

(* ================================================================= *)
(** ** JavaScript numbers *)

Module JsNumber.

(** A number is [NaN], an infinity or a finite value.  Finite doubles are
    rationals, and the operations used by the page ([Math.floor], [% 1],
    comparisons) are exact on them, so they are computed on [Q]; [-0] is
    identified with [0], from which none of these operations tells it apart
    in the page. *)
Inductive t : Type :=
| NaN
| PosInf
| NegInf
| Fin (q : Q).

Definition ofZ (z : Z) : t := Fin (inject_Z z).
Definition ofNat (n : nat) : t := ofZ (Z.of_nat n).

(** [Number(x)] applied to a number. *)
Definition Number (x : t) : t := x.

(** [!x]: the number is [0] or [NaN]. *)
Definition falsy (x : t) : bool :=
  match x with
  | NaN => true
  | Fin q => Qeq_bool q 0
  | PosInf | NegInf => false
  end.

(** [Math.floor(x)] *)
Definition floor (x : t) : t :=
  match x with
  | Fin q => ofZ (Qfloor q)
  | _ => x
  end.

(** Rounding toward zero, the quotient of the remainder operator. *)
Definition Qtrunc (q : Q) : Z :=
  if Qle_bool 0 q then Qfloor q else Qceiling q.

(** [x % 1]: the remainder has the sign of [x]; it is [NaN] when [x] is not
    finite. *)
Definition rem1 (x : t) : t :=
  match x with
  | Fin q => Fin (q - inject_Z (Qtrunc q))
  | _ => NaN
  end.

(** [a < b] *)
Definition lt (a b : t) : bool :=
  match a, b with
  | NaN, _ | _, NaN => false
  | PosInf, _ => false
  | NegInf, NegInf => false
  | NegInf, _ => true
  | Fin _, PosInf => true
  | Fin _, NegInf => false
  | Fin p, Fin q => negb (Qle_bool q p)
  end.

(** [a >= b] *)
Definition ge (a b : t) : bool :=
  match a, b with
  | NaN, _ | _, NaN => false
  | _, _ => negb (lt a b)
  end.

(** [a === b] *)
Definition strict_eq (a b : t) : bool :=
  match a, b with
  | Fin p, Fin q => Qeq_bool p q
  | PosInf, PosInf => true
  | NegInf, NegInf => true
  | _, _ => false
  end.

Definition half : t := Fin (1 # 2).

(** The number is an integer between [lo] and [hi]. *)
Definition integer_in (lo hi : Z) (x : t) : Prop :=
  match x with
  | Fin q => exists z : Z, (lo <= z <= hi)%Z /\ Qeq q (inject_Z z)
  | _ => False
  end.

End JsNumber.

(* ================================================================= *)
(** ** JSON values and the response types of the page *)

Module Json.

(** What [res.json()] yields and what [JSON.stringify] writes, as a tree.
    An object is the list of its properties. *)
Unset Elimination Schemes.
Inductive t : Type :=
| JNull
| JBool (b : bool)
| JNumber (q : Q)
| JString (s : jsstring)
| JArray (items : list t)
| JObject (props : list (jsstring * t)).
Set Elimination Schemes.

Fixpoint assoc (k : jsstring) (props : list (jsstring * t)) : option t :=
  match props with
  | [] => None
  | (k', v) :: r => if JsString.eqb k k' then Some v else assoc k r
  end.

(** [j.k], [None] standing for [undefined]. *)
Definition get (k : string) (j : t) : option t :=
  match j with
  | JObject props => assoc (JsString.lit k) props
  | _ => None
  end.

(** The value is a number, an integer between [lo] and [hi]. *)
Definition integer_in (lo hi : Z) (j : t) : Prop :=
  match j with
  | JNumber q => exists z : Z, (lo <= z <= hi)%Z /\ Qeq q (inject_Z z)
  | _ => False
  end.

(** A number as [JSON.stringify] writes it: [NaN] and the infinities become
    [null]. *)
Definition ofNumber (x : JsNumber.t) : t :=
  match x with
  | JsNumber.Fin q => JNumber q
  | _ => JNull
  end.

End Json.

(** The type declarations at the head of the page, each as the set of JSON
    values it admits. *)
Module Types.
Import Json.

Definition ty := Json.t -> bool.

Definition string_ : ty := fun j => match j with JString _ => true | _ => false end.
Definition number_ : ty := fun j => match j with JNumber _ => true | _ => false end.
Definition boolean_ : ty := fun j => match j with JBool _ => true | _ => false end.

(** [T | null] *)
Definition or_null (T : ty) : ty :=
  fun j => match j with JNull => true | _ => T j end.

(** [T[]] *)
Definition array (T : ty) : ty :=
  fun j => match j with JArray l => forallb T l | _ => false end.

(** [Record<string, T>] *)
Definition record (T : ty) : ty :=
  fun j => match j with JObject props => forallb (fun kv => T (snd kv)) props | _ => false end.

(** A property [k: T] of an object type. *)
Definition prop (k : string) (T : ty) : ty :=
  fun j => match get k j with Some v => T v | None => false end.

(** A property [k?: T] of an object type. *)
Definition prop_opt (k : string) (T : ty) : ty :=
  fun j => match get k j with Some v => T v | None => true end.

Definition is_object : ty := fun j => match j with JObject _ => true | _ => false end.

(** An object type: every listed property has its type. *)
Definition object (props : list ty) : ty :=
  fun j => is_object j && forallb (fun p => p j) props.

Definition Review : ty :=
  object
    [ prop "review_id" (or_null string_);
      prop "author_name" string_;
      prop "rating" (or_null number_);
      prop "title" string_;
      prop "body" string_;
      prop "created_at" (or_null string_);
      prop "verified_purchase" boolean_;
      prop "location" (or_null string_);
      prop "helpful_count" number_;
      prop "not_helpful_count" number_;
      prop "images" (array string_) ].

(** [ProductResult] of [src/frontend/pages/index.tsx]. *)
Definition ProductResult_fields : list ty :=
  [ prop "item_id" string_;
    prop "product_url" (or_null string_);
    prop "scraped_at" string_;
    prop "product_title" (or_null string_);
    prop "average_rating" (or_null number_);
    prop "total_ratings" (or_null number_);
    prop "total_reviews" (or_null number_);
    prop "rating_breakdown" (record number_);
    prop "reviews" (array Review) ].

(** The unnamed page adds two optional lists. *)
Definition ProductResult_extra : list ty :=
  [ prop_opt "best_reviews" (array Review);
    prop_opt "worst_reviews" (array Review) ].

(** [extended] selects the declaration of the unnamed page. *)
Definition ProductResult (extended : bool) : ty :=
  object (ProductResult_fields ++ if extended then ProductResult_extra else []).

Definition ErrorResult : ty :=
  object [ prop "item_id" string_; prop "error" string_ ].

Definition ApiResponse (extended : bool) : ty :=
  object
    [ prop_opt "results" (array (ProductResult extended));
      prop_opt "errors" (array ErrorResult) ].

End Types.

(* ================================================================= *)
(** ** The page: React state, effects and the handler monad *)

Module Page.
Import JsString.

(** The five [useState] cells of [Home].  The handler reads [itemIdsText]
    and [maxReviews] as they were when the page was rendered and never sets
    them, so reading them from the current state is the same. *)
Record State : Type := mkState {
  itemIdsText : jsstring;
  maxReviews : JsNumber.t;
  loading : bool;
  data : option Json.t;
  error : option jsstring
}.

(** A thrown value: an [Error] with its message, or anything else
    ([err instanceof Error] is false). *)
Inductive thrown : Type :=
| ErrorObj (message : jsstring)
| NotAnError.

(** A settled promise. *)
Inductive settled (A : Type) : Type :=
| Fulfilled (a : A)
| Rejected (e : thrown).
Arguments Rejected {A} e.

(** What the handler reads of the [Response] of [fetch]. *)
Record Response : Type := mkResponse {
  res_ok : bool;
  res_status : N;
  res_text : settled jsstring;
  res_json : settled Json.t
}.

(** A call of [fetch]: the method is POST and the content type JSON in both
    pages; [req_body] is the tree that [JSON.stringify] writes. *)
Record Request : Type := mkRequest {
  req_url : jsstring;
  req_body : Json.t
}.

Inductive effect : Type :=
| PreventDefault
| Fetch (rq : Request)
| ConsoleError (label : jsstring) (e : thrown).

Record World : Type := mkWorld {
  page : State;
  log : list effect
}.

(** The requests sent, oldest first. *)
Definition requests (w : World) : list Request :=
  flat_map (fun e => match e with Fetch rq => [rq] | _ => [] end) (log w).

Inductive result (A : Type) : Type :=
| Done (a : A)
| Raised (e : thrown).
Arguments Raised {A} e.

Definition M (A : Type) : Type := World -> result A * World.

Definition ret {A} (a : A) : M A := fun w => (Done a, w).

Definition bind {A B} (m : M A) (k : A -> M B) : M B :=
  fun w => match m w with
           | (Done a, w') => k a w'
           | (Raised e, w') => (Raised e, w')
           end.

Definition throw {A} (e : thrown) : M A := fun w => (Raised e, w).

Notation "x <- m ;; k" := (bind m (fun x => k))
  (at level 61, m at next level, right associativity).
Notation "m ;; k" := (bind m (fun _ => k))
  (at level 61, right associativity).

Definition emit (e : effect) : M unit :=
  fun w => (Done tt, mkWorld (page w) (log w ++ [e])).

Definition modify (f : State -> State) : M unit :=
  fun w => (Done tt, mkWorld (f (page w)) (log w)).

Definition read {A} (f : State -> A) : M A := fun w => (Done (f (page w)), w).

Definition setError (v : option jsstring) : M unit :=
  modify (fun s => mkState (itemIdsText s) (maxReviews s) (loading s) (data s) v).
Definition setData (v : option Json.t) : M unit :=
  modify (fun s => mkState (itemIdsText s) (maxReviews s) (loading s) v (error s)).
Definition setLoading (v : bool) : M unit :=
  modify (fun s => mkState (itemIdsText s) (maxReviews s) v (data s) (error s)).

(** [await p] *)
Definition await {A} (p : settled A) : M A :=
  fun w => match p with
           | Fulfilled a => (Done a, w)
           | Rejected e => (Raised e, w)
           end.

(** [try { body } catch (err) { handler } finally { fin }] *)
Definition try_catch_finally (body : M unit) (handler : thrown -> M unit)
    (fin : M unit) : M unit :=
  fun w =>
    match body w with
    | (Done _, w1) => fin w1
    | (Raised e, w1) =>
        match handler e w1 with
        | (Done _, w2) => fin w2
        | (Raised e', w2) =>
            match fin w2 with
            | (Done _, w3) => (Raised e', w3)
            | r => r
            end
        end
    end.

(** The server behind the endpoint: how the promise of [fetch] settles for a
    request. *)
Definition server := Request -> settled Response.

Definition fetch (srv : server) (rq : Request) : M Response :=
  emit (Fetch rq) ;; await (srv rq).

(** [itemIdsText.split(/[\s,\n]+/).map((i) => i.trim()).filter(Boolean)] *)
Definition tokenize (text : jsstring) : list jsstring :=
  filter truthy (map trim (split_separators text)).

(** [{ item_ids: ids, max_reviews_per_item: Number(maxReviews) }] as
    [JSON.stringify] writes it. *)
Definition scrape_body (ids : list jsstring) (maxReviews : JsNumber.t) : Json.t :=
  Json.JObject
    [ (lit "item_ids", Json.JArray (map Json.JString ids));
      (lit "max_reviews_per_item", Json.ofNumber (JsNumber.Number maxReviews)) ].

(** [txt || `HTTP ${res.status}`] *)
Definition http_error_message (txt : jsstring) (status : N) : jsstring :=
  if truthy txt then txt else lit "HTTP " ++ of_N status.

(** The body of the [try] block, the same in both pages but for the URL. *)
Definition scrape (srv : server) (url : jsstring) (ids : list jsstring) : M unit :=
  mr <- read maxReviews ;;
  res <- fetch srv (mkRequest url (scrape_body ids mr)) ;;
  if negb (res_ok res) then
    txt <- await (res_text res) ;;
    throw (ErrorObj (http_error_message txt (res_status res)))
  else
    json <- await (res_json res) ;;
    setData (Some json).

(** How the [try] block ends for a request: with the parsed body of a
    successful response, or with the value thrown on the way. *)
Definition outcome (srv : server) (rq : Request) : Json.t + thrown :=
  match srv rq with
  | Rejected e => inr e
  | Fulfilled res =>
      if negb (res_ok res) then
        match res_text res with
        | Fulfilled txt => inr (ErrorObj (http_error_message txt (res_status res)))
        | Rejected e => inr e
        end
      else
        match res_json res with
        | Fulfilled json => inl json
        | Rejected e => inr e
        end
  end.

Definition msg_empty : jsstring := lit "Please enter at least one item ID.".
Definition msg_too_many : jsstring :=
  lit "Maximum 10 items allowed. Please reduce the number of item IDs.".
Definition console_label : jsstring := lit "Scrape error:".

(** The request fails: a network error, or a response that is not 2xx. *)
Definition request_fails (srv : server) (rq : Request) : Prop :=
  match srv rq with
  | Rejected _ => True
  | Fulfilled res => res_ok res = false
  end.

(** The world once the [try] statement has run from [w] for the request
    [rq], [msg] being the message the [catch] block computes. *)
Definition after_scrape (srv : server) (w : World) (rq : Request)
    (msg : thrown -> jsstring) : World :=
  let s := page w in
  match outcome srv rq with
  | inl json =>
      mkWorld (mkState (itemIdsText s) (maxReviews s) false (Some json) (error s))
              (log w ++ [Fetch rq])
  | inr e =>
      mkWorld (mkState (itemIdsText s) (maxReviews s) false (data s) (Some (msg e)))
              (log w ++ [Fetch rq; ConsoleError console_label e])
  end.

(** The world after the first three statements of the handler, with the
    given [loading] and [error]. *)
Definition start (st : State) (loading' : bool) (error' : option jsstring) : World :=
  mkWorld (mkState (itemIdsText st) (maxReviews st) loading' None error')
          [PreventDefault].

(** Running a handler from a state of the page, with an empty log. *)
Definition run (h : M unit) (s : State) : result unit * World :=
  h (mkWorld s []).

Definition final (h : M unit) (s : State) : State := page (snd (run h s)).
Definition sent (h : M unit) (s : State) : list Request := requests (snd (run h s)).

End Page.

(* ================================================================= *)
(** ** [src/frontend/pages/index.tsx] *)

Module IndexPage.
Import JsString Page.

Definition endpoint : jsstring := lit "http://localhost:8000/scrape".

(** The message of the [catch] block. *)
Definition errorMessage (err : thrown) : jsstring :=
  match err with
  | ErrorObj message => message
  | NotAnError => lit "Unknown error occurred"
  end.

Section Handler.
Variable srv : server.

Definition on_error (err : thrown) : M unit :=
  setError (Some (errorMessage err)) ;;
  emit (ConsoleError console_label err).

Definition handleSubmit : M unit :=
  emit PreventDefault ;;
  setError None ;;
  setData None ;;
  text <- read itemIdsText ;;
  let ids := tokenize text in
  if length ids =? 0 then
    setError (Some msg_empty)
  else
    setLoading true ;;
    try_catch_finally (scrape srv endpoint ids) on_error (setLoading false).

End Handler.

(** The classes of a star. *)
Inductive star : Type := star_filled | star_half | star_empty.

Inductive rendered : Type :=
| Text (s : jsstring)
| Stars (l : list star).

Definition renderStars (rating : option JsNumber.t) : rendered :=
  match rating with
  | None => Text (lit "N/A")
  | Some rating =>
      if JsNumber.falsy rating then Text (lit "N/A") else
      let fullStars := JsNumber.floor rating in
      let hasHalf := JsNumber.ge (JsNumber.rem1 rating) JsNumber.half in
      Stars (map (fun i =>
                    if JsNumber.lt (JsNumber.ofNat i) fullStars then star_filled
                    else if JsNumber.strict_eq (JsNumber.ofNat i) fullStars && hasHalf
                         then star_half
                         else star_empty)
                 (seq 0 5))
  end.

End IndexPage.

(* ================================================================= *)
(** ** The second copy of the page ([src/unnamed/part_000]) *)

Module SkuPage.
Import JsString Page Validator.

Definition endpoint : jsstring :=
  lit "https://walmart-scraper-59d8.onrender.com/scrape".

(** The message naming the first invalid identifier. *)
Definition invalid_message (id : jsstring) : jsstring :=
  lit "Oops! " ++ [dquote] ++ id ++ [dquote]
  ++ lit " doesn't look like a valid Walmart SKU code. Please check and try again. (SKU codes are usually 6-20 characters)".

(** The message of the [catch] block. *)
Definition errorMessage (err : thrown) : jsstring :=
  match err with
  | ErrorObj message =>
      if includes message (lit "Failed to fetch")
         || includes message (lit "NetworkError")
      then lit "Could not connect to server. Please check your internet connection and try again."
      else if includes message (lit "timeout")
      then lit "Request timed out. The server might be busy. Please try again in a moment."
      else if includes message (lit "Maximum 10 items") then message
      else if includes message (lit "valid Walmart item IDs") then message
      else if truthy message then message
      else lit "An error occurred while scraping. Please try again."
  | NotAnError => lit "An error occurred while scraping. Please try again."
  end.

Section Handler.
Variable srv : server.

Definition on_error (err : thrown) : M unit :=
  setError (Some (errorMessage err)) ;;
  emit (ConsoleError console_label err).

Definition handleSubmit : M unit :=
  emit PreventDefault ;;
  setError None ;;
  setData None ;;
  text <- read itemIdsText ;;
  let ids := tokenize text in
  if length ids =? 0 then
    setError (Some msg_empty)
  else if 10 <? length ids then
    setError (Some msg_too_many)
  else
    match invalidIds ids with
    | bad :: _ => setError (Some (invalid_message bad))
    | [] =>
        setLoading true ;;
        try_catch_finally (scrape srv endpoint ids) on_error (setLoading false)
    end.

End Handler.

(** The inline style of a star. *)
Record star : Type := mkStar {
  color : jsstring;
  opacity : Q;
  fontSize : jsstring
}.

Inductive rendered : Type :=
| Text (s : jsstring)
| Stars (l : list star).

Definition amber : jsstring := lit "#f59e0b".
Definition grey : jsstring := lit "#e2e8f0".

Definition renderStars (rating : option JsNumber.t) : rendered :=
  match rating with
  | None => Text (lit "N/A")
  | Some rating =>
      if JsNumber.falsy rating then Text (lit "N/A") else
      let numRating := JsNumber.Number rating in
      let fullStars := JsNumber.floor numRating in
      let hasHalf := JsNumber.ge (JsNumber.rem1 numRating) JsNumber.half in
      Stars (map (fun i =>
                    let isFilled := JsNumber.lt (JsNumber.ofNat i) fullStars in
                    let isHalf := JsNumber.strict_eq (JsNumber.ofNat i) fullStars && hasHalf in
                    mkStar (if isFilled then amber else if isHalf then amber else grey)
                           (if isHalf then (1 # 2)%Q else 1%Q)
                           (lit "1.2em"))
                 (seq 0 5))
  end.

(** How a star of this page looks: full amber, amber at half opacity, or
    grey. *)
Definition look (s : star) : IndexPage.star :=
  if Qeq_bool (opacity s) (1 # 2) then IndexPage.star_half
  else if JsString.eqb (color s) amber then IndexPage.star_filled
  else IndexPage.star_empty.

End SkuPage.

(** Counting the stars of a kind. *)
Definition is_filled (s : IndexPage.star) : bool :=
  match s with IndexPage.star_filled => true | _ => false end.
Definition is_half (s : IndexPage.star) : bool :=
  match s with IndexPage.star_half => true | _ => false end.
Definition count {A} (p : A -> bool) (l : list A) : nat := length (filter p l).

(** ** Inputs used in the examples *)

Module Examples.
Import JsString Page.

(** A fresh page with the two fields filled in. *)
Definition state_of (text : jsstring) (maxReviews : JsNumber.t) : State :=
  mkState text maxReviews false None None.

(** A server that cannot be reached. *)
Definition srv_down : server :=
  fun _ => Rejected (ErrorObj (lit "Failed to fetch")).

(** A server that answers 200 with the given body. *)
Definition srv_json (j : Json.t) : server :=
  fun _ => Fulfilled (mkResponse true 200 (Fulfilled []) (Fulfilled j)).

(** A server that answers 500. *)
Definition srv_error : server :=
  fun _ => Fulfilled (mkResponse false 500
                        (Fulfilled (lit "Internal Server Error"))
                        (Rejected (ErrorObj (lit "Unexpected token")))).

Definition review (author : string) (rating : Json.t) : Json.t :=
  Json.JObject
    [ (lit "review_id", Json.JNull);
      (lit "author_name", Json.JString (lit author));
      (lit "rating", rating);
      (lit "title", Json.JString (lit "Great product!"));
      (lit "body", Json.JString []);
      (lit "created_at", Json.JString (lit "2025-10-01"));
      (lit "verified_purchase", Json.JBool true);
      (lit "location", Json.JNull);
      (lit "helpful_count", Json.JNumber 3);
      (lit "not_helpful_count", Json.JNumber 0);
      (lit "images", Json.JArray []) ].

Definition product (item_id : string) (reviews : list Json.t) : Json.t :=
  Json.JObject
    [ (lit "item_id", Json.JString (lit item_id));
      (lit "product_url", Json.JNull);
      (lit "scraped_at", Json.JString (lit "2025-12-05T17:55:44.881270+00:00"));
      (lit "product_title", Json.JNull);
      (lit "average_rating", Json.JNumber (43 # 10));
      (lit "total_ratings", Json.JNull);
      (lit "total_reviews", Json.JNumber 128);
      (lit "rating_breakdown",
        Json.JObject [ (lit "5", Json.JNumber 80); (lit "4", Json.JNumber 25) ]);
      (lit "reviews", Json.JArray reviews) ].

Definition item_error (item_id error : string) : Json.t :=
  Json.JObject
    [ (lit "item_id", Json.JString (lit item_id));
      (lit "error", Json.JString (lit error)) ].

(** The response of the scenario with one valid and one invalid
    identifier. *)
Definition mixed_response : Json.t :=
  Json.JObject
    [ (lit "results",
        Json.JArray [ product "5337824985" [ review "John Doe" (Json.JNumber 5) ] ]);
      (lit "errors", Json.JArray [ item_error "bad" "InvalidFormat" ]) ].

(** A page still showing the results of an earlier submission. *)
Definition stale_state : State :=
  mkState (lit "5337824985") (JsNumber.ofZ 50) false (Some mixed_response) None.

Definition eleven_ids : jsstring := lit "a,b,c,d,e,f,g,h,i,j,k".

End Examples.

(** The two pages, for statements about both. *)
Inductive variant : Type := Index | Sku.

Definition handleSubmit_of (v : variant) (srv : Page.server) : Page.M unit :=
  match v with
  | Index => IndexPage.handleSubmit srv
  | Sku => SkuPage.handleSubmit srv
  end.

Definition endpoint_of (v : variant) : jsstring :=
  match v with
  | Index => IndexPage.endpoint
  | Sku => SkuPage.endpoint
  end.

(** [renderStars] of both pages shows five stars for [rating], [filled] of
    them filled and at most one of them half; the inline styles of the second
    page look like the classes of the first. *)
Definition five_stars (rating : option JsNumber.t) (filled : nat) : Prop :=
  exists l l',
    IndexPage.renderStars rating = IndexPage.Stars l
    /\ SkuPage.renderStars rating = SkuPage.Stars l'
    /\ map SkuPage.look l' = l
    /\ length l = 5
    /\ count is_filled l = filled
    /\ count is_half l <= 1.

(** [renderStars] of both pages returns the text [N/A]. *)
Definition not_available (rating : option JsNumber.t) : Prop :=
  IndexPage.renderStars rating = IndexPage.Text (JsString.lit "N/A")
  /\ SkuPage.renderStars rating = SkuPage.Text (JsString.lit "N/A").

(** How a submission ends: either it is turned down in the page, which sends
    nothing and leaves [loading] as it was, or exactly one request goes out. *)
Inductive submission (srv : Page.server) (v : variant) (st : Page.State) :
    Page.World -> Prop :=
| Turned_down (m : jsstring) :
    submission srv v st (Page.start st (Page.loading st) (Some m))
| Sent_out :
    length (Page.tokenize (Page.itemIdsText st)) <> 0 ->
    submission srv v st
      (Page.after_scrape srv (Page.start st true None)
         (Page.mkRequest (endpoint_of v)
            (Page.scrape_body (Page.tokenize (Page.itemIdsText st))
               (Page.maxReviews st)))
         (match v with
          | Index => IndexPage.errorMessage
          | Sku => SkuPage.errorMessage
          end)).

(* ================================================================= *)
(** ** The rest of the page: what is shown, and the download *)

(** The conditions of the JSX of [Home], the same in both pages. *)
Module View.
Import JsString Page.

(** [{error && (...)}]: the error box. *)
Definition errorBoxShown (st : State) : bool :=
  match error st with
  | Some m => truthy m
  | None => false
  end.

(** Whether a value read from a response is truthy: [null], [false], [0]
    and the empty string are not, arrays and objects are. *)
Definition truthy_value (j : Json.t) : bool :=
  match j with
  | Json.JNull => false
  | Json.JBool b => b
  | Json.JNumber q => negb (Qeq_bool q 0)
  | Json.JString s => truthy s
  | Json.JArray _ | Json.JObject _ => true
  end.

(** [data] as a condition: the state is null, or holds the body that
    [setData(json)] stored, which may itself be falsy. *)
Definition dataTruthy (st : State) : bool :=
  match data st with
  | Some j => truthy_value j
  | None => false
  end.

(** [{loading && (...)}]: the spinner. *)
Definition loadingBoxShown (st : State) : bool := loading st.

(** [data && !loading], the condition of the results block.  What the
    block renders once the condition holds is not modelled. *)
Definition resultsGuard (st : State) : bool :=
  dataTruthy st && negb (loading st).

(** [disabled={loading}] of the textarea, the number input and the submit
    button. *)
Definition submitDisabled (st : State) : bool := loading st.

(** [disabled={!data || loading}] of the download button. *)
Definition downloadDisabled (st : State) : bool :=
  negb (dataTruthy st) || loading st.

(** [product.product_title || `Item ${product.item_id}`] *)
Definition productHeading (product_title : option jsstring) (item_id : jsstring)
    : jsstring :=
  match product_title with
  | Some title => if truthy title then title else lit "Item " ++ item_id
  | None => lit "Item " ++ item_id
  end.

(** [review.body.substring(0, 250)] followed by
    [review.body.length > 250 && "..."], of [index.tsx]. *)
Definition bodyPreview (body : jsstring) : jsstring :=
  firstn 250 body ++ (if 250 <? length body then lit "..." else []).

End View.

(** [handleDownload], the same in both pages. *)
Module Download.
Import JsString.

(** [s.split(c)] for a separator of one character. *)
Fixpoint split_char (c : code_unit) (cur : jsstring) (s : jsstring)
    : list jsstring :=
  match s with
  | [] => [cur]
  | x :: r =>
      if N.eqb x c then cur :: split_char c [] r
      else split_char c (cur ++ [x]) r
  end.

Definition letter_T : code_unit := 84%N.

(** [`walmart_reviews_${iso.split('T')[0]}.json`], [iso] being
    [new Date().toISOString()]. *)
Definition fileName (iso : jsstring) : jsstring :=
  lit "walmart_reviews_" ++ nth 0 (split_char letter_T [] iso) []
  ++ lit ".json".

(** What the handler does to the document.  The blob holds
    [JSON.stringify(data, null, 2)], kept as the tree it writes. *)
Inductive dom_effect : Type :=
| CreateObjectURL (blob : Json.t)
| CreateLink (href download : jsstring)
| AppendChild
| Click
| Remove
| RevokeObjectURL (url : jsstring).

(** [url] is what [URL.createObjectURL] returns, [iso] the time of the
    click. *)
Definition handleDownload (data : option Json.t) (url iso : jsstring)
    : list dom_effect :=
  match data with
  | None => []
  | Some d =>
      if View.truthy_value d then
        [ CreateObjectURL d; CreateLink url (fileName iso); AppendChild; Click;
          Remove; RevokeObjectURL url ]
      else []
  end.

End Download.

(** The identifiers written one after the other, each followed by the
    separator [sep]. *)
Definition join_with (sep : JsString.code_unit) (ids : list jsstring) : jsstring :=
  flat_map (fun id => id ++ [sep]) ids.

(** The characters an identifier may be made of. *)
Definition id_char (c : JsString.code_unit) : bool :=
  JsString.isAlnum c || N.eqb c JsString.hyphen || N.eqb c JsString.underscore.

(** A string without any character of the class [[\s,\n]]. *)
Definition sep_free (s : jsstring) : Prop :=
  Forall (fun c => JsString.isSeparator c = false) s.

(** A decimal digit. *)
Definition is_digit (c : JsString.code_unit) : Prop := (48 <= c <= 57)%N.

Definition is_empty_star (s : IndexPage.star) : bool :=
  match s with IndexPage.star_empty => true | _ => false end.

Module MoreExamples.
Import JsString Page.

(** A server that answers 503 with an empty body. *)
Definition srv_empty_error : server :=
  fun _ => Fulfilled (mkResponse false 503 (Fulfilled []) (Rejected NotAnError)).

Definition ok_response : Response :=
  mkResponse true 200 (Fulfilled []) (Fulfilled Examples.mixed_response).

End MoreExamples.

(* ================================================================= *)
(** ** The form around the handler *)

(** [<form onSubmit={handleSubmit}>] and its number input
    [<input type="number" value={maxReviews} min={1} max={...}
    onChange={(e) => setMaxReviews(Number(e.target.value))}>].  The form has
    no [noValidate], the input no [step] and no [required]. *)
Module Form.
Import Page.

(** [min={1}] *)
Definition min_reviews : Z := 1.

(** [max={10000}] in the second page, [max={500}] in [index.tsx]. *)
Definition max_reviews (v : variant) : Z :=
  match v with
  | Index => 500
  | Sku => 10000
  end.

(** [useState("")], [useState(50)] or [useState(1000)], [useState(false)],
    [useState(null)] twice. *)
Definition initial (v : variant) : State :=
  mkState [] (JsNumber.ofZ (match v with Index => 50 | Sku => 1000 end))
          false None None.

(** The value of the controlled input: the number of the state written out.
    A number input holds the empty string or a finite number, so [NaN] and
    the infinities leave it empty. *)
Definition input_value (x : JsNumber.t) : option Q :=
  match x with
  | JsNumber.Fin q => Some q
  | _ => None
  end.

(** Constraint validation of the input.  The empty value is valid; a number
    is valid when it is not under [min], not over [max], and a whole number
    of steps of 1 away from [min]. *)
Definition input_valid (v : variant) (value : option Q) : bool :=
  match value with
  | None => true
  | Some q =>
      Qle_bool (inject_Z min_reviews) q
      && Qle_bool q (inject_Z (max_reviews v))
      && Qeq_bool (q - inject_Z min_reviews)
                  (inject_Z (Qfloor (q - inject_Z min_reviews)))
  end.

(** [Number(e.target.value)]: 0 for the empty value. *)
Definition NumberOfValue (value : option Q) : JsNumber.t :=
  match value with
  | Some q => JsNumber.Fin q
  | None => JsNumber.ofZ 0
  end.

(** [onChange] of the number input. *)
Definition onChangeMaxReviews (value : option Q) (st : State) : State :=
  mkState (itemIdsText st) (NumberOfValue value) (loading st) (data st) (error st).

(** [onChange={(e) => setItemIdsText(e.target.value)}] of the textarea. *)
Definition onChangeItemIds (text : jsstring) (st : State) : State :=
  mkState text (maxReviews st) (loading st) (data st) (error st).

(** Submitting the form: the browser validates the controls first and
    fires the submit event, which runs the handler, only when they are
    valid. *)
Definition submit (v : variant) (srv : server) : M unit :=
  fun w =>
    if input_valid v (input_value (maxReviews (page w)))
    then handleSubmit_of v srv w
    else (Done tt, w).

(** The states the page goes through: it starts in [initial], the user
    types in either field and submits the form. *)
Inductive reachable (v : variant) : State -> Prop :=
| reach_initial : reachable v (initial v)
| reach_ids (st : State) (text : jsstring) :
    reachable v st -> reachable v (onChangeItemIds text st)
| reach_max (st : State) (value : option Q) :
    reachable v st -> reachable v (onChangeMaxReviews value st)
| reach_submit (st : State) (srv : server) :
    reachable v st -> reachable v (final (submit v srv) st).

End Form.

(* ================================================================= *)
(** ** The batch engine, from the specification *)

(** The server that answers the scrape request is not under [src/]; this
    module follows sections 3, 4 and 7 of the specification.  What the
    specification leaves to the browser or to the configuration is a
    variable of the section. *)
Module Engine.
Import JsString.

(** Modelled from the spec: the taxonomy of errors of section 7, which the
    absent server attaches to an identifier. *)
Inductive ErrorKind : Type :=
| InvalidFormat
| NavigationError
| TimeoutError
| ParseError
| ExtractionError (message : jsstring).

(** Modelled from the spec: the name under which the absent server reports
    an error; an unclassified failure carries its original message. *)
Definition error_text (e : ErrorKind) : jsstring :=
  match e with
  | InvalidFormat => lit "InvalidFormat"
  | NavigationError => lit "NavigationError"
  | TimeoutError => lit "TimeoutError"
  | ParseError => lit "ParseError"
  | ExtractionError message => lit "ExtractionError: " ++ message
  end.

(** Modelled from the spec: the identifier validator of section 4.1, absent
    from [src/]: strip [-] and [_]; the identifier is rejected if what is
    left has fewer than 6 characters, if the original has more than 20, or
    if what is left is not alphanumeric.  [true] stands for Ok, [false] for
    InvalidFormat. *)
Definition validate (id : jsstring) : bool :=
  (6 <=? length (Validator.cleaned id))
  && (length id <=? 20)
  && forallb isAlnum (Validator.cleaned id).

(** Modelled from the spec: the Review of section 3, built by the absent
    parser.  The rating is an integer from 1 to 5 or absent. *)
Record Review : Type := mkReview {
  review_id : option jsstring;
  author_name : jsstring;
  rating : option Z;
  title : jsstring;
  body : jsstring;
  created_at : option jsstring;
  verified_purchase : bool;
  location : option jsstring;
  helpful_count : N;
  not_helpful_count : N;
  images : list jsstring
}.

(** Modelled from the spec: a raw review block of section 4.4, the input of
    the absent parser, as what the extraction of each field finds in it
    ([None] when the field cannot be extracted). *)
Record RawReviewBlock : Type := mkRaw {
  raw_id : option jsstring;
  raw_name : option jsstring;
  raw_stars : option Z;
  raw_title : option jsstring;
  raw_body : option jsstring;
  raw_date : option jsstring;
  raw_verified : option bool;
  raw_location : option jsstring;
  raw_helpful : option N;
  raw_not_helpful : option N;
  raw_image_urls : list jsstring
}.

(** Modelled from the spec: the summary of section 4.3, read on the landing
    page by the absent navigator; a missing field is null. *)
Record ProductSummary : Type := mkSummary {
  sum_title : option jsstring;
  sum_average_rating : option Q;
  sum_total_ratings : option N;
  sum_total_reviews : option N;
  sum_rating_breakdown : list (N * N)
}.

(** Modelled from the spec: the ProductResult of section 3, built by the
    absent aggregator.  The selections of best and worst reviews are left
    out. *)
Record ProductResult : Type := mkProduct {
  item_id : jsstring;
  product_url : option jsstring;
  scraped_at : jsstring;
  product_title : option jsstring;
  average_rating : option Q;
  total_ratings : option N;
  total_reviews : option N;
  rating_breakdown : list (N * N);
  reviews : list Review
}.

(** Modelled from the spec: the ErrorResult of section 3, built by the
    absent orchestrator. *)
Record ErrorResult : Type := mkError {
  err_item_id : jsstring;
  err_error : ErrorKind
}.

(** Modelled from the spec: the BatchResponse of section 3, returned by the
    absent [scrapeBatch]. *)
Record BatchResponse : Type := mkBatch {
  results : list ProductResult;
  errors : list ErrorResult
}.

(** Modelled from the spec: the rating the absent parser reads from a
    star-count indicator: absent when the indicator is missing, and, the
    rating being an integer from 1 to 5 or absent, also when the count is
    not one of these. *)
Definition rating_of_stars (stars : option Z) : option Z :=
  match stars with
  | Some k => if ((1 <=? k) && (k <=? 5))%Z then Some k else None
  | None => None
  end.

Definition default {A} (d : A) (x : option A) : A :=
  match x with Some a => a | None => d end.

Section Parser.

(** The placeholder author and the normal form of dates, which the
    specification does not spell out. *)
Variable placeholder : jsstring.
Variable normalize_date : jsstring -> option jsstring.

(** Modelled from the spec: [parse] of section 4.4, absent from [src/].
    Each field has its own fallback; the block is skipped ([None]) only when
    neither the author nor the body can be extracted. *)
Definition parse (b : RawReviewBlock) : option Review :=
  match raw_name b, raw_body b with
  | None, None => None
  | _, _ =>
      Some (mkReview (raw_id b)
              (default placeholder (raw_name b))
              (rating_of_stars (raw_stars b))
              (default [] (raw_title b))
              (default [] (raw_body b))
              (match raw_date b with
               | Some text => normalize_date text
               | None => None
               end)
              (default false (raw_verified b))
              (raw_location b)
              (default 0%N (raw_helpful b))
              (default 0%N (raw_not_helpful b))
              (raw_image_urls b))
  end.

(** Modelled from the spec: the reviews of the blocks that are not skipped,
    in extraction order. *)
Definition parse_all (blocks : list RawReviewBlock) : list Review :=
  flat_map (fun b => match parse b with Some r => [r] | None => [] end) blocks.

(** What drives the browser (session, navigation, pagination) for one
    identifier: a classified error, or the summary and the raw blocks. *)
Variable load : jsstring -> nat -> ErrorKind + ProductSummary * list RawReviewBlock.

(** The URL template and the clock of the configuration. *)
Variable url_of : jsstring -> jsstring.
Variable now : jsstring.

(** Modelled from the spec: [aggregate] of section 4.5, absent from
    [src/]: the reviews are truncated to [max_reviews_per_item], in
    extraction order. *)
Definition aggregate (id : jsstring) (summary : ProductSummary)
    (revs : list Review) (max_reviews_per_item : nat) : ProductResult :=
  mkProduct id (Some (url_of id)) now
    (sum_title summary) (sum_average_rating summary)
    (sum_total_ratings summary) (sum_total_reviews summary)
    (sum_rating_breakdown summary)
    (firstn max_reviews_per_item revs).

(** Modelled from the spec: the task of one identifier in the absent
    orchestrator of section 4.7.  An identifier that fails the validator is
    an InvalidFormat error and is never loaded; any other ends as a result
    or as the error its load was classified as. *)
Definition task (id : jsstring) (max_reviews_per_item : nat)
    : ErrorResult + ProductResult :=
  if validate id then
    match load id max_reviews_per_item with
    | inl e => inl (mkError id e)
    | inr (summary, blocks) =>
        inr (aggregate id summary (parse_all blocks) max_reviews_per_item)
    end
  else inl (mkError id InvalidFormat).

(** Modelled from the spec: [scrapeBatch] of section 6, absent from
    [src/]: one task per identifier, the outcomes collected in two lists.
    The specification fixes no order; the lists are kept in submission
    order here. *)
Definition scrapeBatch (item_ids : list jsstring) (max_reviews_per_item : nat)
    : BatchResponse :=
  mkBatch
    (flat_map (fun id => match task id max_reviews_per_item with
                         | inr p => [p]
                         | inl _ => []
                         end) item_ids)
    (flat_map (fun id => match task id max_reviews_per_item with
                         | inl e => [e]
                         | inr _ => []
                         end) item_ids).

End Parser.





(** Modelled from the spec: an ErrorResult as the absent server writes
    it. *)
Definition ErrorResult_to_json (e : ErrorResult) : Json.t :=
  Json.JObject
    [ (lit "item_id", Json.JString (err_item_id e));
      (lit "error", Json.JString (error_text (err_error e))) ].


End Engine.

Module EngineExamples.
Import JsString Engine.

(** A load that finds seven blocks for every identifier, one of them
    without author and body. *)
Definition block (name : option jsstring) (stars : option Z) : RawReviewBlock :=
  mkRaw None name stars None (Some (lit "Works well.")) None None None None None [].

Definition blank_block : RawReviewBlock :=
  mkRaw None None (Some 3%Z) None None None None None None None [].

Definition seven_blocks : list RawReviewBlock :=
  [ block (Some (lit "Ana")) (Some 5%Z); blank_block;
    block None (Some 9%Z); block (Some (lit "Li")) None;
    block (Some (lit "Noor")) (Some 1%Z); block (Some (lit "Sam")) (Some 4%Z);
    block (Some (lit "Kim")) (Some 2%Z) ].

Definition no_summary : ProductSummary := mkSummary None None None None [].

Definition load_seven : jsstring -> nat -> ErrorKind + ProductSummary * list RawReviewBlock :=
  fun _ _ => inr (no_summary, seven_blocks).

Definition anonymous : jsstring := lit "Anonymous".
Definition no_dates : jsstring -> option jsstring := fun _ => None.
Definition walmart_url (id : jsstring) : jsstring :=
  lit "https://www.walmart.com/ip/" ++ id.
Definition noon : jsstring := lit "2025-12-05T12:00:00+00:00".

End EngineExamples.

(* ================================================================= *)
(** * Properties *)

(** ** The definitions on small inputs *)

Section Checks.
Import JsString.

Example split_leading_separator :
  split_separators (lit ",a") = [[]; lit "a"].
Proof. reflexivity. Qed.

Example split_trailing_run :
  split_separators (lit "a, ") = [lit "a"; []].
Proof. reflexivity. Qed.

Example split_empty : split_separators [] = [[]].
Proof. reflexivity. Qed.

Example tokenize_lines_and_commas :
  Page.tokenize (lit " 5337824985," ++ [10%N] ++ lit "bad ,,6000206317264" ++ [10%N])
  = [lit "5337824985"; lit "bad"; lit "6000206317264"].
Proof. reflexivity. Qed.

Example tokenize_blank : Page.tokenize (lit "  , ") = [].
Proof. reflexivity. Qed.

Example invalidId_samples :
  map Validator.invalidId
    [lit "5337824985"; lit "bad"; lit "abc-de"; lit "------"; lit "abc_def!";
     lit "123456789012345678901"; lit "12345-67890_abcdeABC"]
  = [false; true; false; true; true; true; false].
Proof. reflexivity. Qed.

Example http_error_message_empty :
  Page.http_error_message [] 500 = lit "HTTP 500".
Proof. reflexivity. Qed.

Example errorMessage_network :
  SkuPage.errorMessage (Page.ErrorObj (lit "TypeError: Failed to fetch"))
  = lit "Could not connect to server. Please check your internet connection and try again.".
Proof. reflexivity. Qed.

Example renderStars_four_and_a_half :
  IndexPage.renderStars (Some (JsNumber.Fin (9 # 2)))
  = IndexPage.Stars
      [IndexPage.star_filled; IndexPage.star_filled; IndexPage.star_filled;
       IndexPage.star_filled; IndexPage.star_half].
Proof. reflexivity. Qed.

Example renderStars_three_point_two :
  match SkuPage.renderStars (Some (JsNumber.Fin (16 # 5))) with
  | SkuPage.Stars l => map SkuPage.look l
  | SkuPage.Text _ => []
  end
  = [IndexPage.star_filled; IndexPage.star_filled; IndexPage.star_filled;
     IndexPage.star_empty; IndexPage.star_empty].
Proof. reflexivity. Qed.

Example renderStars_zero :
  IndexPage.renderStars (Some (JsNumber.ofZ 0)) = IndexPage.Text (lit "N/A").
Proof. reflexivity. Qed.

Example mixed_response_typed :
  Types.ApiResponse false Examples.mixed_response = true.
Proof. reflexivity. Qed.

End Checks.

(** ** Strings and the identifier check *)

Section ValidatorFacts.
Import JsString Validator.

Lemma truthy_nonempty (s : jsstring) : truthy s = true <-> s <> [].
Proof. destruct s; simpl; split; congruence. Qed.

Lemma remove_all_length (c : code_unit) (s : jsstring) :
  length (remove_all c s) <= length s.
Proof. apply filter_length_le. Qed.

Lemma cleaned_length (id : jsstring) : length (cleaned id) <= length id.
Proof.
  unfold cleaned.
  etransitivity; [apply remove_all_length | apply remove_all_length].
Qed.

Lemma matches_alnum_plus_spec (s : jsstring) :
  matches_alnum_plus s = true <->
  s <> [] /\ Forall (fun c => isAlnum c = true) s.
Proof.
  unfold matches_alnum_plus.
  rewrite andb_true_iff, truthy_nonempty, forallb_forall, Forall_forall.
  reflexivity.
Qed.

(** What the check of the page accepts. *)
Lemma invalidId_false_iff (id : jsstring) :
  invalidId id = false <->
  6 <= length id <= 20 /\ cleaned id <> [] /\
  Forall (fun c => isAlnum c = true) (cleaned id).
Proof.
  unfold invalidId.
  rewrite !orb_false_iff, negb_false_iff, matches_alnum_plus_spec,
    !Nat.ltb_ge.
  intuition lia.
Qed.

(** The rule of the specification is the stricter one. *)
Lemma spec_format_ok_accepted (id : jsstring) :
  spec_format_ok id -> invalidId id = false.
Proof.
  intros (Hmin & Hmax & Halnum).
  apply invalidId_false_iff.
  pose proof (cleaned_length id) as Hle.
  repeat split; try lia; trivial.
  intros Hnil. rewrite Hnil in Hmin. simpl in Hmin. lia.
Qed.

End ValidatorFacts.

(** ** The submit handlers *)

Section HandlerFacts.
Import Page.
Variable srv : server.

(** The [try] statement never lets an exception out and always ends with
    [loading] reset. *)
Lemma try_block (url : jsstring) (ids : list jsstring) (msg : thrown -> jsstring)
    (w : World) :
  try_catch_finally (scrape srv url ids)
    (fun err => setError (Some (msg err)) ;; emit (ConsoleError console_label err))
    (setLoading false) w
  = (Done tt,
     after_scrape srv w (mkRequest url (scrape_body ids (maxReviews (page w)))) msg).
Proof.
  unfold after_scrape, outcome, try_catch_finally, scrape, fetch, bind, emit,
    read, setError, setData, setLoading, modify, await, throw.
  cbn [page log].
  destruct (srv _) as [res | e]; cbn [page log].
  - destruct (res_ok res); cbn [negb page log].
    + destruct (res_json res); cbn [page log]; rewrite <- ?app_assoc; reflexivity.
    + destruct (res_text res); cbn [page log]; rewrite <- ?app_assoc; reflexivity.
  - rewrite <- app_assoc. reflexivity.
Qed.

Lemma run_Index (st : State) :
  run (IndexPage.handleSubmit srv) st =
  (Done tt,
   if length (tokenize (itemIdsText st)) =? 0
   then start st (loading st) (Some msg_empty)
   else after_scrape srv (start st true None)
          (mkRequest IndexPage.endpoint
             (scrape_body (tokenize (itemIdsText st)) (maxReviews st)))
          IndexPage.errorMessage).
Proof.
  unfold run, IndexPage.handleSubmit, IndexPage.on_error.
  unfold bind at 1 2 3 4. unfold emit, setError, setData, read, modify at 1 2.
  cbn [page log itemIdsText app].
  destruct (length (tokenize (itemIdsText st)) =? 0); [reflexivity | ].
  unfold bind at 1. unfold setLoading, modify.
  exact (try_block IndexPage.endpoint _ IndexPage.errorMessage _).
Qed.

Lemma run_Sku (st : State) :
  run (SkuPage.handleSubmit srv) st =
  (Done tt,
   if length (tokenize (itemIdsText st)) =? 0
   then start st (loading st) (Some msg_empty)
   else if 10 <? length (tokenize (itemIdsText st))
   then start st (loading st) (Some msg_too_many)
   else match Validator.invalidIds (tokenize (itemIdsText st)) with
        | bad :: _ => start st (loading st) (Some (SkuPage.invalid_message bad))
        | [] => after_scrape srv (start st true None)
                  (mkRequest SkuPage.endpoint
                     (scrape_body (tokenize (itemIdsText st)) (maxReviews st)))
                  SkuPage.errorMessage
        end).
Proof.
  unfold run, SkuPage.handleSubmit, SkuPage.on_error.
  unfold bind at 1 2 3 4. unfold emit, setError, setData, read, modify at 1 2.
  cbn [page log itemIdsText app].
  destruct (length (tokenize (itemIdsText st)) =? 0); [reflexivity | ].
  destruct (10 <? length (tokenize (itemIdsText st))); [reflexivity | ].
  destruct (Validator.invalidIds (tokenize (itemIdsText st))); [ | reflexivity].
  unfold bind at 1. unfold setLoading, modify.
  exact (try_block SkuPage.endpoint _ SkuPage.errorMessage _).
Qed.

Lemma after_scrape_requests st l e rq msg :
  requests (after_scrape srv (start st l e) rq msg) = [rq].
Proof. unfold after_scrape. destruct (outcome srv rq); reflexivity. Qed.

Lemma after_scrape_loading st l e rq msg :
  loading (page (after_scrape srv (start st l e) rq msg)) = false.
Proof. unfold after_scrape. destruct (outcome srv rq); reflexivity. Qed.

Lemma after_scrape_data st l e rq msg :
  data (page (after_scrape srv (start st l e) rq msg)) =
  match outcome srv rq with inl json => Some json | inr _ => None end.
Proof. unfold after_scrape. destruct (outcome srv rq); reflexivity. Qed.

Lemma outcome_of_failure rq :
  request_fails srv rq -> exists e, outcome srv rq = inr e.
Proof.
  unfold request_fails, outcome. destruct (srv rq) as [res | e].
  - intros ->. cbn [negb]. destruct (res_text res); eauto.
  - eauto.
Qed.

(** Both handlers return normally, in one of the two ways of
    [submission]. *)
Lemma run_submission v st :
  exists w, run (handleSubmit_of v srv) st = (Done tt, w) /\ submission srv v st w.
Proof.
  destruct v; cbn [handleSubmit_of].
  - rewrite run_Index. eexists; split; [reflexivity | ].
    destruct (Nat.eqb_spec (length (tokenize (itemIdsText st))) 0).
    + constructor.
    + apply (Sent_out srv Index). assumption.
  - rewrite run_Sku. eexists; split; [reflexivity | ].
    destruct (Nat.eqb_spec (length (tokenize (itemIdsText st))) 0);
      [constructor | ].
    destruct (10 <? _); [constructor | ].
    destruct (Validator.invalidIds _); [ | constructor].
    apply (Sent_out srv Sku). assumption.
Qed.

End HandlerFacts.

(** C10: whenever the submit handler of either page has sent the scrape
    request and the request fails (the promise of [fetch] rejects, or the
    response is not 2xx), the handler returns normally with [data] equal to
    null and [loading] equal to false. *)
Theorem failed_scrape_leaves_no_data (v : variant) (srv : Page.server)
    (st : Page.State) (rq : Page.Request) :
  In rq (Page.sent (handleSubmit_of v srv) st) ->
  Page.request_fails srv rq ->
  fst (Page.run (handleSubmit_of v srv) st) = Page.Done tt
  /\ Page.data (Page.final (handleSubmit_of v srv) st) = None
  /\ Page.loading (Page.final (handleSubmit_of v srv) st) = false.
Proof.
  unfold Page.sent, Page.final.
  destruct (run_submission srv v st) as (w & -> & Hw). cbn [fst snd].
  destruct Hw as [m | Hne].
  - intros [].
  - rewrite after_scrape_requests, after_scrape_loading, after_scrape_data.
    intros [<- | []] Hfail.
    destruct (outcome_of_failure srv _ Hfail) as (e & ->). auto.
Qed.

Lemma failed_scrape_leaves_no_data_witness :
  let srv := Examples.srv_error in
  let st := Examples.stale_state in
  let rq := Page.mkRequest SkuPage.endpoint
              (Page.scrape_body [JsString.lit "5337824985"] (JsNumber.ofZ 50)) in
  In rq (Page.sent (handleSubmit_of Sku srv) st)
  /\ Page.request_fails srv rq
  /\ Page.data st <> None
  /\ fst (Page.run (handleSubmit_of Sku srv) st) = Page.Done tt
  /\ Page.data (Page.final (handleSubmit_of Sku srv) st) = None
  /\ Page.loading (Page.final (handleSubmit_of Sku srv) st) = false.
Proof.
  intros srv st rq.
  assert (Hin : In rq (Page.sent (handleSubmit_of Sku srv) st))
    by (left; reflexivity).
  assert (Hfail : Page.request_fails srv rq) by reflexivity.
  split; [exact Hin | split; [exact Hfail | split; [discriminate | ]]].
  exact (@failed_scrape_leaves_no_data Sku srv st rq Hin Hfail).
Defined.

(** ** Requests and guards *)

Section SubmitFacts.
Import Page.
Variable srv : server.

Lemma tokenize_no_empty (text : jsstring) : ~ In [] (tokenize text).
Proof.
  unfold tokenize. intros H. apply filter_In in H. destruct H as [_ H].
  discriminate H.
Qed.

Lemma invalidIds_nil (ids : list jsstring) :
  Validator.invalidIds ids = [] <->
  Forall (fun id => Validator.invalidId id = false) ids.
Proof.
  unfold Validator.invalidIds. induction ids as [ | id ids IH]; simpl.
  - split; auto.
  - destruct (Validator.invalidId id) eqn:E; split.
    + discriminate.
    + intros H. inversion H; congruence.
    + intros H. constructor; [assumption | apply IH, H].
    + intros H. inversion H; subst. apply IH. assumption.
Qed.

End SubmitFacts.

Section Requests.
Import Page.

Lemma get_max_reviews (ids : list jsstring) (mr : JsNumber.t) :
  Json.get "max_reviews_per_item" (scrape_body ids mr) = Some (Json.ofNumber mr).
Proof. reflexivity. Qed.

Lemma get_item_ids (ids : list jsstring) (mr : JsNumber.t) :
  Json.get "item_ids" (scrape_body ids mr) = Some (Json.JArray (map Json.JString ids)).
Proof. reflexivity. Qed.

Lemma sent_request (v : variant) (srv : server) (st : State) (rq : Request) :
  In rq (sent (handleSubmit_of v srv) st) ->
  rq = mkRequest (endpoint_of v)
         (scrape_body (tokenize (itemIdsText st)) (maxReviews st)).
Proof.
  unfold sent. destruct (run_submission srv v st) as (w & -> & Hw). cbn [snd].
  destruct Hw as [m | Hne].
  - intros [].
  - rewrite after_scrape_requests. intros [<- | []]. reflexivity.
Qed.

(** C9: when the identifiers read from the textarea are at least one and at
    most 10 and each passes the format rule, the handlers of the two pages
    send one request each, with the same body: the same [item_ids], none of
    them empty, and the same [max_reviews_per_item]. *)
Theorem submit_bodies_agree (srv1 srv2 : server) (st : State) :
  tokenize (itemIdsText st) <> [] ->
  length (tokenize (itemIdsText st)) <= 10 ->
  Forall Validator.spec_format_ok (tokenize (itemIdsText st)) ->
  exists body,
    sent (IndexPage.handleSubmit srv1) st = [mkRequest IndexPage.endpoint body]
    /\ sent (SkuPage.handleSubmit srv2) st = [mkRequest SkuPage.endpoint body]
    /\ body = scrape_body (tokenize (itemIdsText st)) (maxReviews st)
    /\ Json.get "item_ids" body
         = Some (Json.JArray (map Json.JString (tokenize (itemIdsText st))))
    /\ ~ In [] (tokenize (itemIdsText st)).
Proof.
  intros Hne Hlen Hok. eexists.
  assert (E0 : (length (tokenize (itemIdsText st)) =? 0) = false).
  { apply Nat.eqb_neq. destruct (tokenize (itemIdsText st)); simpl; congruence. }
  assert (E1 : (10 <? length (tokenize (itemIdsText st))) = false).
  { apply Nat.ltb_ge. assumption. }
  assert (E2 : Validator.invalidIds (tokenize (itemIdsText st)) = []).
  { apply invalidIds_nil. eapply Forall_impl; [ | exact Hok].
    apply spec_format_ok_accepted. }
  split; [ | split; [ | split; [reflexivity | split]]].
  - unfold sent. rewrite run_Index, E0. cbn [snd]. apply after_scrape_requests.
  - unfold sent. rewrite run_Sku, E0, E1, E2. cbn [snd]. apply after_scrape_requests.
  - apply get_item_ids.
  - apply tokenize_no_empty.
Qed.

Lemma submit_bodies_agree_witness :
  let st := Examples.state_of (JsString.lit "5337824985, 6000206317264")
              (JsNumber.ofZ 50) in
  tokenize (itemIdsText st)
    = [JsString.lit "5337824985"; JsString.lit "6000206317264"]
  /\ exists body,
       sent (IndexPage.handleSubmit Examples.srv_down) st
         = [mkRequest IndexPage.endpoint body]
       /\ sent (SkuPage.handleSubmit Examples.srv_error) st
          = [mkRequest SkuPage.endpoint body]
       /\ body = scrape_body (tokenize (itemIdsText st)) (maxReviews st)
       /\ Json.get "item_ids" body
          = Some (Json.JArray (map Json.JString (tokenize (itemIdsText st))))
       /\ ~ In [] (tokenize (itemIdsText st)).
Proof.
  intros st.
  assert (Hids : tokenize (itemIdsText st)
                 = [JsString.lit "5337824985"; JsString.lit "6000206317264"])
    by reflexivity.
  split; [exact Hids | ].
  apply (@submit_bodies_agree Examples.srv_down Examples.srv_error st).
  - rewrite Hids. discriminate.
  - rewrite Hids. simpl. lia.
  - rewrite Hids.
    repeat (apply Forall_cons || apply Forall_nil);
      (split; [vm_compute; lia | split; [vm_compute; lia | ]]);
      apply Forall_forall; apply forallb_forall; reflexivity.
Defined.

(** C3 (as amended): a submission without identifiers is turned down by both
    pages with an error message and no request; one with more than 10
    identifiers is turned down likewise by the validating page, while
    [index.tsx], which has no such guard, sends it to the endpoint. *)
Theorem size_guards (srv : server) (st : State) :
  tokenize (itemIdsText st) = [] \/ 10 < length (tokenize (itemIdsText st)) ->
  (sent (SkuPage.handleSubmit srv) st = []
   /\ final (SkuPage.handleSubmit srv) st
      = mkState (itemIdsText st) (maxReviews st) (loading st) None
          (Some (if length (tokenize (itemIdsText st)) =? 0
                 then msg_empty else msg_too_many)))
  /\ ((tokenize (itemIdsText st) = []
       /\ sent (IndexPage.handleSubmit srv) st = []
       /\ final (IndexPage.handleSubmit srv) st
          = mkState (itemIdsText st) (maxReviews st) (loading st) None
              (Some msg_empty))
      \/ (10 < length (tokenize (itemIdsText st))
          /\ sent (IndexPage.handleSubmit srv) st
             = [mkRequest IndexPage.endpoint
                  (scrape_body (tokenize (itemIdsText st)) (maxReviews st))])).
Proof.
  unfold sent, final. rewrite run_Sku, run_Index. cbn [snd].
  intros [Hnil | Hbig].
  - rewrite Hnil. cbn. auto.
  - assert (E0 : (length (tokenize (itemIdsText st)) =? 0) = false)
      by (apply Nat.eqb_neq; lia).
    assert (E1 : (10 <? length (tokenize (itemIdsText st))) = true)
      by (apply Nat.ltb_lt; lia).
    rewrite E0, E1. split; [split; reflexivity | ].
    right. split; [assumption | apply after_scrape_requests].
Qed.

Lemma size_guards_witness :
  let st := Examples.state_of Examples.eleven_ids (JsNumber.ofZ 50) in
  10 < length (tokenize (itemIdsText st))
  /\ sent (SkuPage.handleSubmit Examples.srv_down) st = []
  /\ error (final (SkuPage.handleSubmit Examples.srv_down) st) = Some msg_too_many.
Proof.
  intros st.
  assert (Hbig : 10 < length (tokenize (itemIdsText st))) by (vm_compute; lia).
  split; [exact Hbig | ].
  destruct (@size_guards Examples.srv_down st (or_intror Hbig))
    as [[Hsent Hfinal] _].
  split; [exact Hsent | ]. rewrite Hfinal. reflexivity.
Defined.

(** C3 fails as stated: [index.tsx] sends a request for eleven
    identifiers. *)
Lemma index_page_sends_eleven_ids :
  length (tokenize (JsString.lit "a,b,c,d,e,f,g,h,i,j,k")) = 11
  /\ sent (IndexPage.handleSubmit Examples.srv_down)
          (Examples.state_of (JsString.lit "a,b,c,d,e,f,g,h,i,j,k") (JsNumber.ofZ 50))
     = [mkRequest IndexPage.endpoint
          (scrape_body
             (map JsString.lit ["a"; "b"; "c"; "d"; "e"; "f"; "g"; "h"; "i"; "j"; "k"]%string)
             (JsNumber.ofZ 50))].
Proof. split; vm_compute; reflexivity. Qed.

(** C4, the code at the failing input: [abc-de] fails the format rule (5
    characters once stripped) and the validating page, which measures the
    identifier with its dash, sends it to the endpoint all the same. *)
Lemma short_stripped_id_is_sent :
  ~ Validator.spec_format_ok (JsString.lit "abc-de")
  /\ tokenize (JsString.lit "abc-de") = [JsString.lit "abc-de"]
  /\ sent (SkuPage.handleSubmit Examples.srv_down)
          (Examples.state_of (JsString.lit "abc-de") (JsNumber.ofZ 50))
     = [mkRequest SkuPage.endpoint
          (scrape_body [JsString.lit "abc-de"] (JsNumber.ofZ 50))].
Proof.
  split; [ | split; vm_compute; reflexivity].
  intros (Hmin & _). vm_compute in Hmin. lia.
Qed.

End Requests.

(** ** Stars *)

Section StarFacts.
Import JsNumber.

Lemma Qle_bool_inject_Z (a b : Z) :
  Qle_bool (inject_Z a) (inject_Z b) = (a <=? b)%Z.
Proof. unfold Qle_bool, inject_Z. simpl. rewrite !Z.mul_1_r. reflexivity. Qed.

Lemma Qeq_bool_inject_Z (a b : Z) :
  Qeq_bool (inject_Z a) (inject_Z b) = (a =? b)%Z.
Proof. unfold Qeq_bool, inject_Z. simpl. rewrite !Z.mul_1_r. reflexivity. Qed.

Lemma lt_ofNat_floor (i : nat) (q : Q) :
  lt (ofNat i) (floor (Fin q)) = (Z.of_nat i <? Qfloor q)%Z.
Proof.
  unfold lt, floor, ofNat, ofZ. rewrite Qle_bool_inject_Z.
  rewrite Z.ltb_antisym. reflexivity.
Qed.

Lemma strict_eq_ofNat_floor (i : nat) (q : Q) :
  strict_eq (ofNat i) (floor (Fin q)) = (Z.of_nat i =? Qfloor q)%Z.
Proof. unfold strict_eq, floor, ofNat, ofZ. apply Qeq_bool_inject_Z. Qed.

Ltac settle_cmp :=
  repeat match goal with
    | |- context [(?a <? ?b)%Z] =>
        destruct (Z.ltb_spec a b); try (exfalso; lia)
    | |- context [(?a =? ?b)%Z] =>
        destruct (Z.eqb_spec a b); try (exfalso; lia)
    end.

Lemma finite_stars (q : Q) :
  Qeq_bool q 0 = false ->
  five_stars (Some (Fin q)) (Z.to_nat (Z.min 5 (Z.max 0 (Qfloor q)))).
Proof.
  intros Hq. unfold five_stars, IndexPage.renderStars, SkuPage.renderStars, Number.
  cbn [falsy]. rewrite Hq. do 2 eexists. split; [reflexivity | ].
  split; [reflexivity | ].
  cbn [seq map]. rewrite !lt_ofNat_floor, !strict_eq_ofNat_floor.
  set (f := Qfloor q). set (h := ge (rem1 (Fin q)) half).
  cbn [Z.of_nat Pos.of_succ_nat Pos.succ].
  assert (Hf : (f < 0 \/ f = 0 \/ f = 1 \/ f = 2 \/ f = 3 \/ f = 4 \/ 5 <= f)%Z) by lia.
  destruct Hf as [Hf | [Hf | [Hf | [Hf | [Hf | [Hf | Hf]]]]]];
    settle_cmp; destruct h; cbn;
    (split; [reflexivity | split; [reflexivity | split; [ | lia]]]).
  all: try (subst f; rewrite ?Hf; reflexivity).
  all: lia.
Qed.
End StarFacts.

(** C8 (as amended): [renderStars] returns the text [N/A] when the rating is
    null, 0 or [NaN]; for every other number it shows exactly five stars, of
    which [floor(rating)] cut to the range 0-5 are filled (all five for
    [Infinity], none for [-Infinity]) and at most one is a half star. *)
Theorem renderStars_shape (rating : option JsNumber.t) :
  match rating with
  | None | Some JsNumber.NaN => not_available rating
  | Some (JsNumber.Fin q) =>
      if Qeq_bool q 0 then not_available rating
      else five_stars rating (Z.to_nat (Z.min 5 (Z.max 0 (Qfloor q))))
  | Some JsNumber.PosInf => five_stars rating 5
  | Some JsNumber.NegInf => five_stars rating 0
  end.
Proof.
  destruct rating as [[ | | | q] | ].
  - split; reflexivity.
  - do 2 eexists. repeat split; cbn; lia.
  - do 2 eexists. repeat split; cbn; lia.
  - destruct (Qeq_bool q 0) eqn:Hq.
    + unfold not_available, IndexPage.renderStars, SkuPage.renderStars.
      cbn [JsNumber.falsy]. rewrite Hq. split; reflexivity.
    + apply finite_stars. assumption.
  - split; reflexivity.
Qed.

(** C8 fails as stated: for the rating 7 five stars are filled, not
    [floor(7) = 7]; and [NaN], a number other than 0, gives [N/A]. *)
Lemma seven_shows_five_filled_stars :
  (exists l, IndexPage.renderStars (Some (JsNumber.ofZ 7)) = IndexPage.Stars l
             /\ count is_filled l = 5)
  /\ (exists l, SkuPage.renderStars (Some (JsNumber.ofZ 7)) = SkuPage.Stars l
                /\ count is_filled (map SkuPage.look l) = 5)
  /\ JsNumber.floor (JsNumber.ofZ 7) = JsNumber.ofZ 7
  /\ IndexPage.renderStars (Some JsNumber.NaN) = IndexPage.Text (JsString.lit "N/A")
  /\ SkuPage.renderStars (Some JsNumber.NaN) = SkuPage.Text (JsString.lit "N/A").
Proof.
  split; [eexists; split; reflexivity | ].
  split; [eexists; split; reflexivity | ].
  repeat split.
Qed.

(* ================================================================= *)
(** * Further properties of the page *)

(** ** Reading the identifiers *)

Section TokenFacts.
Import JsString Page.

Lemma isWhiteSpace_isSeparator (c : code_unit) :
  isWhiteSpace c = true -> isSeparator c = true.
Proof. unfold isSeparator. intros ->. reflexivity. Qed.

Lemma drop_ws_sep_free (s : jsstring) : sep_free s -> drop_ws s = s.
Proof.
  intros H. destruct H as [ | c r Hc _]; [reflexivity | ].
  simpl. destruct (isWhiteSpace c) eqn:E; [ | reflexivity].
  apply isWhiteSpace_isSeparator in E. congruence.
Qed.

Lemma trim_sep_free (s : jsstring) : sep_free s -> trim s = s.
Proof.
  intros H. unfold trim. rewrite (drop_ws_sep_free H).
  rewrite drop_ws_sep_free; [apply rev_involutive | ].
  apply Forall_rev. exact H.
Qed.

Lemma split_go_sep_free (s : jsstring) : forall b cur,
  sep_free cur -> Forall sep_free (split_go b cur s).
Proof.
  induction s as [ | c r IH]; intros b cur Hcur; simpl.
  - constructor; [exact Hcur | constructor].
  - destruct (isSeparator c) eqn:E.
    + destruct b.
      * apply IH. exact Hcur.
      * constructor; [exact Hcur | apply IH; constructor].
    + apply IH. apply Forall_app. split; [exact Hcur | ].
      constructor; [exact E | constructor].
Qed.

Lemma tokenize_split (text : jsstring) :
  tokenize text = filter truthy (split_separators text).
Proof.
  unfold tokenize. f_equal.
  rewrite <- (map_id (split_separators text)) at 2.
  apply map_ext_in. intros p Hp. apply trim_sep_free.
  pose proof (@split_go_sep_free text false [] (Forall_nil _)) as H.
  rewrite Forall_forall in H. apply H. exact Hp.
Qed.

(** X1: every identifier read from the textarea is non-empty and holds no
    white space and no comma, so that trimming it changes nothing. *)
Theorem tokens_clean (text : jsstring) (id : jsstring) :
  In id (tokenize text) ->
  id <> [] /\ Forall (fun c => isSeparator c = false) id
  /\ trim id = id.
Proof.
  rewrite tokenize_split. intros H. apply filter_In in H. destruct H as [Hin Ht].
  assert (Hs : sep_free id).
  { pose proof (@split_go_sep_free text false [] (Forall_nil _)) as H.
    rewrite Forall_forall in H. apply H. exact Hin. }
  split; [destruct id; [discriminate | discriminate] | ].
  split; [exact Hs | apply trim_sep_free; exact Hs].
Qed.

Lemma tokens_clean_witness :
  let text := lit " 5337824985, bad" in
  In (lit "bad") (tokenize text)
  /\ lit "bad" <> []
  /\ Forall (fun c => isSeparator c = false) (lit "bad")
  /\ trim (lit "bad") = lit "bad".
Proof.
  intros text.
  assert (Hin : In (lit "bad") (tokenize text)) by (right; left; reflexivity).
  split; [exact Hin | exact (@tokens_clean text (lit "bad") Hin)].
Defined.

Lemma split_go_run_start (r : jsstring) :
  filter truthy (split_go true [] r) = filter truthy (split_go false [] r).
Proof.
  destruct r as [ | x r]; [reflexivity | ].
  simpl. destruct (isSeparator x); reflexivity.
Qed.

Lemma split_go_app (a : jsstring) : forall b cur c r,
  (b = true -> cur = []) -> isSeparator c = true ->
  filter truthy (split_go b cur (a ++ c :: r))
  = filter truthy (split_go b cur a) ++ filter truthy (split_go false [] r).
Proof.
  induction a as [ | x a IH]; intros b cur c r Hinv Hc.
  - simpl. rewrite Hc. destruct b.
    + rewrite (Hinv eq_refl). simpl. apply split_go_run_start.
    + simpl. rewrite split_go_run_start. destruct (truthy cur); reflexivity.
  - simpl. destruct (isSeparator x) eqn:E.
    + destruct b.
      * apply IH; assumption.
      * simpl. rewrite (IH true [] c r); [ | reflexivity | assumption].
        destruct (truthy cur); reflexivity.
    + apply IH; [discriminate | assumption].
Qed.

(** X2: a separator (white space or comma) between two texts makes their
    identifiers follow one another: nothing is merged across it and nothing
    is lost. *)
Theorem tokenize_app (a b : jsstring) (c : code_unit) :
  isSeparator c = true ->
  tokenize (a ++ c :: b) = tokenize a ++ tokenize b.
Proof.
  intros Hc. rewrite !tokenize_split. unfold split_separators.
  apply split_go_app; [discriminate | exact Hc].
Qed.

Lemma tokenize_app_witness :
  isSeparator 10%N = true
  /\ tokenize (lit "123456, 7" ++ 10%N :: lit "abcdef")
     = tokenize (lit "123456, 7") ++ tokenize (lit "abcdef").
Proof.
  split; [reflexivity | ].
  exact (@tokenize_app (lit "123456, 7") (lit "abcdef") 10%N eq_refl).
Defined.

Lemma split_go_no_sep (p : jsstring) : forall cur,
  sep_free p -> split_go false cur p = [cur ++ p].
Proof.
  induction p as [ | x p IH]; intros cur H; simpl.
  - rewrite app_nil_r. reflexivity.
  - inversion H as [ | ? ? Hx Hp]; subst. rewrite Hx.
    rewrite (IH _ Hp), <- app_assoc. reflexivity.
Qed.

Lemma tokenize_single (id : jsstring) :
  id <> [] -> sep_free id -> tokenize id = [id].
Proof.
  intros Hne H. rewrite tokenize_split. unfold split_separators.
  rewrite (split_go_no_sep [] H). simpl.
  destruct id; [congruence | reflexivity].
Qed.

(** X3: identifiers that are non-empty and hold no separator, written one
    after the other with a separator after each, are read back as they were,
    in the same order. *)
Theorem tokenize_join (sep : code_unit) (ids : list jsstring) :
  isSeparator sep = true ->
  Forall (fun id => id <> [] /\ Forall (fun c => isSeparator c = false) id) ids ->
  tokenize (join_with sep ids) = ids.
Proof.
  intros Hsep H. induction H as [ | id ids [Hne Hfree] _ IH]; [reflexivity | ].
  unfold join_with. simpl. fold (join_with sep ids).
  rewrite <- app_assoc. simpl.
  rewrite tokenize_split. unfold split_separators.
  rewrite split_go_app; [ | discriminate | exact Hsep].
  fold (split_separators id). fold (split_separators (join_with sep ids)).
  rewrite <- !tokenize_split, IH, (tokenize_single Hne Hfree).
  reflexivity.
Qed.

Lemma tokenize_join_witness :
  let ids := [lit "5337824985"; lit "6000206317264"] in
  isSeparator 44%N = true
  /\ join_with 44%N ids = lit "5337824985,6000206317264,"
  /\ tokenize (join_with 44%N ids) = ids.
Proof.
  intros ids. split; [reflexivity | split; [reflexivity | ]].
  apply (@tokenize_join 44%N ids eq_refl).
  repeat (apply Forall_cons || apply Forall_nil);
    (split; [discriminate | repeat constructor]).
Defined.

Lemma split_go_blank (s : jsstring) : forall b cur,
  (b = true -> cur = []) ->
  (filter truthy (split_go b cur s) = []
   <-> cur = [] /\ Forall (fun c => isSeparator c = true) s).
Proof.
  induction s as [ | x r IH]; intros b cur Hinv; simpl.
  - destruct cur; simpl; split.
    + auto.
    + reflexivity.
    + discriminate.
    + intros [H _]. discriminate.
  - destruct (isSeparator x) eqn:E.
    + destruct b.
      * rewrite (IH true cur Hinv). split.
        -- intros [Hc Hr]. split; [exact Hc | constructor; assumption].
        -- intros [Hc Hr]. inversion Hr; subst. auto.
      * simpl. destruct cur as [ | y cur]; simpl.
        -- rewrite (IH true [] (fun _ => eq_refl)). split.
           ++ intros [_ Hr]. split; [reflexivity | constructor; assumption].
           ++ intros [_ Hr]. inversion Hr; subst. auto.
        -- split; [discriminate | intros [H _]; discriminate].
    + rewrite (IH false (cur ++ [x])); [ | discriminate]. split.
      * intros [H _]. destruct cur; discriminate.
      * intros [_ H]. inversion H; subst. congruence.
Qed.

(** No identifier is read exactly when the textarea holds nothing but white
    space and commas. *)
Theorem tokenize_blank_iff (text : jsstring) :
  tokenize text = [] <-> Forall (fun c => isSeparator c = true) text.
Proof.
  rewrite tokenize_split. unfold split_separators.
  rewrite (@split_go_blank text false []); [ | discriminate].
  tauto.
Qed.

End TokenFacts.

(** ** The characters of an identifier *)

Section IdFacts.
Import JsString Validator.

Lemma alnum_kept (c : code_unit) :
  isAlnum c = true -> negb (N.eqb c hyphen) = true /\ negb (N.eqb c underscore) = true.
Proof.
  unfold isAlnum, hyphen, underscore. intros H.
  split; apply negb_true_iff, N.eqb_neq; intros ->; discriminate H.
Qed.

Lemma cleaned_cons (c : code_unit) (id : jsstring) :
  cleaned (c :: id) =
  if N.eqb c hyphen || N.eqb c underscore then cleaned id else c :: cleaned id.
Proof.
  unfold cleaned, remove_all. simpl.
  destruct (N.eqb c hyphen) eqn:Eh; simpl; [reflexivity | ].
  destruct (N.eqb c underscore); reflexivity.
Qed.

Lemma cleaned_alnum_iff (id : jsstring) :
  Forall (fun c => isAlnum c = true) (cleaned id)
  <-> Forall (fun c => id_char c = true) id.
Proof.
  induction id as [ | c id IH].
  - split; constructor.
  - rewrite cleaned_cons. unfold id_char at 1.
    destruct (N.eqb c hyphen || N.eqb c underscore) eqn:E.
    + rewrite IH. split.
      * intros H. constructor; [ | exact H].
        unfold id_char. rewrite <- orb_assoc, E. apply orb_true_r.
      * intros H. inversion H; assumption.
    + split.
      * intros H. inversion H; subst. constructor; [ | apply IH; assumption].
        unfold id_char. rewrite <- orb_assoc, E, orb_false_r. assumption.
      * intros H. inversion H as [ | ? ? Hc Hr]; subst.
        constructor; [ | apply IH; assumption].
        unfold id_char in Hc. rewrite <- orb_assoc, E, orb_false_r in Hc.
        exact Hc.
Qed.

Lemma cleaned_nonempty_iff (id : jsstring) :
  Forall (fun c => id_char c = true) id ->
  (cleaned id <> [] <-> Exists (fun c => isAlnum c = true) id).
Proof.
  induction 1 as [ | c id Hc _ IH].
  - split; [intros H; elim H; reflexivity | intros H; inversion H].
  - rewrite cleaned_cons.
    destruct (N.eqb c hyphen || N.eqb c underscore) eqn:E.
    + rewrite IH. split.
      * intros H. right. exact H.
      * intros H. inversion H as [? ? Ha | ]; subst; [ | assumption].
        destruct (alnum_kept _ Ha) as [H1 H2].
        apply negb_true_iff in H1, H2. rewrite H1, H2 in E. discriminate.
    + split; [ | discriminate].
      intros _. left. unfold id_char in Hc.
      rewrite <- orb_assoc, E, orb_false_r in Hc. exact Hc.
Qed.

End IdFacts.

(** X5: the check of the validating page accepts an identifier exactly when
    it has 6 to 20 characters, all of them letters, digits, [-] or [_], and
    at least one of them a letter or a digit. *)
Theorem invalidId_by_characters (id : jsstring) :
  Validator.invalidId id = false <->
  6 <= length id /\ length id <= 20
  /\ Forall (fun c => id_char c = true) id
  /\ Exists (fun c => JsString.isAlnum c = true) id.
Proof.
  rewrite invalidId_false_iff, cleaned_alnum_iff. split.
  - intros (Hlen & Hne & Hall). repeat split; try lia; try assumption.
    apply cleaned_nonempty_iff; assumption.
  - intros (Hmin & Hmax & Hall & Hex). repeat split; try lia; try assumption.
    apply cleaned_nonempty_iff; assumption.
Qed.

Section FirstInvalid.
Import Page.

Lemma invalidIds_first (pre post : list jsstring) (bad : jsstring) :
  Forall (fun id => Validator.invalidId id = false) pre ->
  Validator.invalidId bad = true ->
  Validator.invalidIds (pre ++ bad :: post) = bad :: Validator.invalidIds post.
Proof.
  intros Hpre Hbad. unfold Validator.invalidIds. rewrite filter_app.
  apply invalidIds_nil in Hpre. unfold Validator.invalidIds in Hpre.
  rewrite Hpre. simpl. rewrite Hbad. reflexivity.
Qed.

(** X6: among at most 10 identifiers, the error message of the validating
    page names the first invalid one in the order of the textarea, and
    nothing is sent. *)
Theorem first_invalid_id_is_named (srv : server) (st : State)
    (pre post : list jsstring) (bad : jsstring) :
  tokenize (itemIdsText st) = pre ++ bad :: post ->
  length (pre ++ bad :: post) <= 10 ->
  Forall (fun id => Validator.invalidId id = false) pre ->
  Validator.invalidId bad = true ->
  error (final (SkuPage.handleSubmit srv) st) = Some (SkuPage.invalid_message bad)
  /\ sent (SkuPage.handleSubmit srv) st = [].
Proof.
  intros Hids Hlen Hpre Hbad. unfold final, sent.
  rewrite run_Sku, Hids, (@invalidIds_first pre post bad Hpre Hbad). cbn [snd].
  assert (E0 : (length (pre ++ bad :: post) =? 0) = false).
  { apply Nat.eqb_neq. rewrite length_app. simpl. lia. }
  assert (E1 : (10 <? length (pre ++ bad :: post)) = false)
    by (apply Nat.ltb_ge; exact Hlen).
  rewrite E0, E1. split; reflexivity.
Qed.

Lemma first_invalid_id_is_named_witness :
  let st := Examples.state_of (JsString.lit "5337824985,bad,x") (JsNumber.ofZ 5) in
  tokenize (itemIdsText st) = [JsString.lit "5337824985"] ++ JsString.lit "bad" :: [JsString.lit "x"]
  /\ error (final (SkuPage.handleSubmit Examples.srv_down) st)
     = Some (SkuPage.invalid_message (JsString.lit "bad"))
  /\ sent (SkuPage.handleSubmit Examples.srv_down) st = [].
Proof.
  intros st. split; [reflexivity | ].
  apply (@first_invalid_id_is_named Examples.srv_down st
           [JsString.lit "5337824985"] [JsString.lit "x"] (JsString.lit "bad")).
  - reflexivity.
  - simpl. lia.
  - repeat constructor.
  - reflexivity.
Defined.

End FirstInvalid.

(** ** The handler as a whole *)

Section MoreHandlerFacts.
Import JsString Page.
Variable srv : server.

Lemma outcome_success (rq : Request) (res : Response) (json : Json.t) :
  srv rq = Fulfilled res -> res_ok res = true -> res_json res = Fulfilled json ->
  outcome srv rq = inl json.
Proof. unfold outcome. intros -> -> ->. reflexivity. Qed.

Lemma outcome_inl (rq : Request) (json : Json.t) :
  outcome srv rq = inl json ->
  exists res, srv rq = Fulfilled res /\ res_ok res = true
              /\ res_json res = Fulfilled json.
Proof.
  unfold outcome. destruct (srv rq) as [res | e]; [ | discriminate].
  destruct (res_ok res) eqn:Hok; cbn [negb].
  - destruct (res_json res) eqn:Hj; [ | discriminate].
    intros [= ->]. exists res. auto.
  - destruct (res_text res); discriminate.
Qed.

Lemma after_scrape_error st l rq msg :
  error (page (after_scrape srv (start st l None) rq msg)) =
  match outcome srv rq with inl _ => None | inr e => Some (msg e) end.
Proof. unfold after_scrape. destruct (outcome srv rq); reflexivity. Qed.

Lemma after_scrape_fields st l e rq msg :
  itemIdsText (page (after_scrape srv (start st l e) rq msg)) = itemIdsText st
  /\ maxReviews (page (after_scrape srv (start st l e) rq msg)) = maxReviews st.
Proof. unfold after_scrape. destruct (outcome srv rq); split; reflexivity. Qed.

End MoreHandlerFacts.

Section HandlerExtras.
Import Page.

(** X7: however the promises of [fetch], [res.text()] and [res.json()]
    settle, the submit handler of either page returns without an
    exception, sends at most one request, leaves the text and the number of
    the form as they are, and ends with [loading] false unless it has sent
    nothing and [loading] was true before.  A promise that never settles is
    outside of [Page.server]. *)
Theorem handler_returns_one_request_at_most (v : variant) (srv : server) (st : State) :
  fst (run (handleSubmit_of v srv) st) = Done tt
  /\ length (sent (handleSubmit_of v srv) st) <= 1
  /\ itemIdsText (final (handleSubmit_of v srv) st) = itemIdsText st
  /\ maxReviews (final (handleSubmit_of v srv) st) = maxReviews st
  /\ loading (final (handleSubmit_of v srv) st)
     = match sent (handleSubmit_of v srv) st with
       | [] => loading st
       | _ :: _ => false
       end.
Proof.
  unfold sent, final.
  destruct (run_submission srv v st) as (w & -> & Hw). cbn [fst snd].
  destruct Hw as [m | Hne].
  - repeat split. simpl. lia.
  - rewrite after_scrape_requests, after_scrape_loading.
    destruct (after_scrape_fields srv st true None
                (mkRequest (endpoint_of v)
                   (scrape_body (tokenize (itemIdsText st)) (maxReviews st)))
                (match v with
                 | Index => IndexPage.errorMessage
                 | Sku => SkuPage.errorMessage
                 end)) as [H1 H2].
    repeat split; try assumption. simpl. lia.
Qed.

(** X8: when the request that was sent is answered by a 2xx response whose
    body parses, the handler of either page ends with [data] equal to that
    body, no error and [loading] false. *)
Theorem successful_scrape_shows_data (v : variant) (srv : server) (st : State)
    (rq : Request) (res : Response) (json : Json.t) :
  In rq (sent (handleSubmit_of v srv) st) ->
  srv rq = Fulfilled res -> res_ok res = true -> res_json res = Fulfilled json ->
  data (final (handleSubmit_of v srv) st) = Some json
  /\ error (final (handleSubmit_of v srv) st) = None
  /\ loading (final (handleSubmit_of v srv) st) = false.
Proof.
  unfold sent, final.
  destruct (run_submission srv v st) as (w & -> & Hw). cbn [snd].
  destruct Hw as [m | Hne].
  - intros [].
  - rewrite after_scrape_requests, after_scrape_data, after_scrape_error,
      after_scrape_loading.
    intros [<- | []] Hs Hok Hj. rewrite (outcome_success _ _ Hs Hok Hj). auto.
Qed.

Lemma successful_scrape_shows_data_witness :
  let st := Examples.state_of (JsString.lit "5337824985") (JsNumber.ofZ 5) in
  let srv := Examples.srv_json Examples.mixed_response in
  let rq := mkRequest IndexPage.endpoint
              (scrape_body [JsString.lit "5337824985"] (JsNumber.ofZ 5)) in
  In rq (sent (handleSubmit_of Index srv) st)
  /\ data (final (handleSubmit_of Index srv) st) = Some Examples.mixed_response
  /\ error (final (handleSubmit_of Index srv) st) = None
  /\ loading (final (handleSubmit_of Index srv) st) = false.
Proof.
  intros st srv rq.
  assert (Hin : In rq (sent (handleSubmit_of Index srv) st))
    by (left; reflexivity).
  split; [exact Hin | ].
  exact (@successful_scrape_shows_data Index srv st rq MoreExamples.ok_response
           Examples.mixed_response Hin eq_refl eq_refl eq_refl).
Defined.

(** X10: what a submission leaves and what it sends do not depend on the
    results or the error the page was showing before: two pages with the
    same text, number and [loading] end in the same state. *)
Theorem no_stale_state (v : variant) (srv : server) (st st' : State) :
  itemIdsText st = itemIdsText st' ->
  maxReviews st = maxReviews st' ->
  loading st = loading st' ->
  final (handleSubmit_of v srv) st = final (handleSubmit_of v srv) st'
  /\ sent (handleSubmit_of v srv) st = sent (handleSubmit_of v srv) st'.
Proof.
  intros Ht Hm Hl. unfold final, sent.
  destruct v; cbn [handleSubmit_of]; rewrite ?run_Index, ?run_Sku;
    unfold start; rewrite Ht, Hm, Hl; split; reflexivity.
Qed.

Lemma no_stale_state_witness :
  let st := Examples.stale_state in
  let st' := Examples.state_of (JsString.lit "5337824985") (JsNumber.ofZ 50) in
  data st <> data st'
  /\ final (handleSubmit_of Sku Examples.srv_error) st
     = final (handleSubmit_of Sku Examples.srv_error) st'
  /\ sent (handleSubmit_of Sku Examples.srv_error) st
     = sent (handleSubmit_of Sku Examples.srv_error) st'.
Proof.
  intros st st'. split; [discriminate | ].
  exact (@no_stale_state Sku Examples.srv_error st st' eq_refl eq_refl eq_refl).
Defined.

End HandlerExtras.

(** ** Messages *)

Section MessageFacts.
Import JsString Page.

Lemma prefixb_head (p s : jsstring) (a : code_unit) :
  prefixb (a :: p) s = true -> In a s.
Proof.
  destruct s as [ | b s]; simpl; [discriminate | ].
  intros H. apply andb_true_iff in H. destruct H as [H _].
  apply N.eqb_eq in H. left. congruence.
Qed.

Lemma includes_head (s p : jsstring) (a : code_unit) :
  includes s (a :: p) = true -> In a s.
Proof.
  induction s as [ | b s IH].
  - simpl. discriminate.
  - intros H. cbn [includes] in H. apply orb_true_iff in H. destruct H as [H | H].
    + eapply prefixb_head. exact H.
    + right. apply IH. exact H.
Qed.

Lemma lit_cons (a : ascii) (s : string) :
  lit (String a s) = N_of_ascii a :: lit s.
Proof. reflexivity. Qed.

Lemma string_of_uint_digits (d : Decimal.uint) :
  Forall is_digit (lit (NilEmpty.string_of_uint d)).
Proof.
  induction d; cbn [NilEmpty.string_of_uint]; rewrite ?lit_cons;
    constructor; try assumption; unfold is_digit; simpl; lia.
Qed.

Lemma of_N_digits (n : N) : Forall is_digit (of_N n).
Proof.
  unfold of_N, NilZero.string_of_uint.
  destruct (N.to_uint n); try apply string_of_uint_digits.
  constructor; [unfold is_digit; simpl; lia | constructor].
Qed.

Lemma http_status_has_no (c : code_unit) (n : N) :
  ~ is_digit c -> ~ In c (lit "HTTP ") -> ~ In c (lit "HTTP " ++ of_N n).
Proof.
  intros Hd Hp H. apply in_app_or in H. destruct H as [H | H]; [auto | ].
  pose proof (of_N_digits n) as Hall. rewrite Forall_forall in Hall. auto.
Qed.

Lemma http_status_not_included (n : N) (p : string) (a : ascii) :
  ~ is_digit (N_of_ascii a) -> ~ In (N_of_ascii a) (lit "HTTP ") ->
  includes (lit "HTTP " ++ of_N n) (lit (String a p)) = false.
Proof.
  intros Hd Hp. apply not_true_is_false. intros H.
  rewrite lit_cons in H. apply includes_head in H.
  exact (@http_status_has_no _ n Hd Hp H).
Qed.

Lemma includes_nonempty (s p : jsstring) :
  includes s p = true -> p <> [] -> s <> [].
Proof.
  intros H Hp ->. destruct p; [congruence | discriminate H].
Qed.

Lemma Sku_errorMessage_nonempty (e : thrown) : SkuPage.errorMessage e <> [].
Proof.
  destruct e as [m | ]; unfold SkuPage.errorMessage; [ | discriminate].
  destruct (includes m _ || includes m _); [discriminate | ].
  destruct (includes m (lit "timeout")); [discriminate | ].
  destruct (includes m (lit "Maximum 10 items")) eqn:E1.
  { eapply includes_nonempty; [exact E1 | discriminate]. }
  destruct (includes m (lit "valid Walmart item IDs")) eqn:E2.
  { eapply includes_nonempty; [exact E2 | discriminate]. }
  destruct m; simpl; discriminate.
Qed.

(** The two branches that look for a server message return what the last
    branch returns. *)
Lemma Sku_errorMessage_cases (m : jsstring) :
  SkuPage.errorMessage (ErrorObj m) =
  if includes m (lit "Failed to fetch") || includes m (lit "NetworkError")
  then lit "Could not connect to server. Please check your internet connection and try again."
  else if includes m (lit "timeout")
  then lit "Request timed out. The server might be busy. Please try again in a moment."
  else if truthy m then m
  else lit "An error occurred while scraping. Please try again.".
Proof.
  unfold SkuPage.errorMessage.
  destruct (_ || _); [reflexivity | ].
  destruct (includes m (lit "timeout")); [reflexivity | ].
  destruct (includes m (lit "Maximum 10 items")) eqn:E1.
  { rewrite (proj2 (truthy_nonempty m)); [reflexivity | ].
    eapply includes_nonempty; [exact E1 | discriminate]. }
  destruct (includes m (lit "valid Walmart item IDs")) eqn:E2.
  { rewrite (proj2 (truthy_nonempty m)); [reflexivity | ].
    eapply includes_nonempty; [exact E2 | discriminate]. }
  reflexivity.
Qed.

Lemma Sku_errorMessage_http_status (n : N) :
  SkuPage.errorMessage (ErrorObj (lit "HTTP " ++ of_N n)) = lit "HTTP " ++ of_N n.
Proof.
  rewrite Sku_errorMessage_cases.
  rewrite !http_status_not_included.
  - reflexivity.
  - unfold is_digit. simpl. lia.
  - simpl. intuition discriminate.
  - unfold is_digit. simpl. lia.
  - simpl. intuition discriminate.
  - unfold is_digit. simpl. lia.
  - simpl. intuition discriminate.
Qed.

End MessageFacts.

Section StatusMessage.
Import Page.

(** X11: when the response is not 2xx and its body is empty, both pages show
    the error [HTTP] followed by the status code, whatever the code. *)
Theorem empty_error_body_shows_status (v : variant) (srv : server) (st : State)
    (rq : Request) (res : Response) :
  In rq (sent (handleSubmit_of v srv) st) ->
  srv rq = Fulfilled res -> res_ok res = false -> res_text res = Fulfilled [] ->
  error (final (handleSubmit_of v srv) st)
  = Some (JsString.lit "HTTP " ++ JsString.of_N (res_status res)).
Proof.
  unfold sent, final.
  destruct (run_submission srv v st) as (w & -> & Hw). cbn [snd].
  destruct Hw as [m | Hne].
  - intros [].
  - rewrite after_scrape_requests. intros [<- | []] Hs Hok Ht.
    unfold after_scrape, outcome. rewrite Hs, Hok, Ht. cbn [negb page error].
    unfold http_error_message. cbn [JsString.truthy].
    destruct v; cbn [IndexPage.errorMessage]; [reflexivity | ].
    rewrite Sku_errorMessage_http_status. reflexivity.
Qed.

Lemma empty_error_body_shows_status_witness :
  let st := Examples.state_of (JsString.lit "5337824985") (JsNumber.ofZ 5) in
  let srv := MoreExamples.srv_empty_error in
  let rq := mkRequest SkuPage.endpoint
              (scrape_body [JsString.lit "5337824985"] (JsNumber.ofZ 5)) in
  In rq (sent (handleSubmit_of Sku srv) st)
  /\ error (final (handleSubmit_of Sku srv) st) = Some (JsString.lit "HTTP 503").
Proof.
  intros st srv rq.
  assert (Hin : In rq (sent (handleSubmit_of Sku srv) st))
    by (left; reflexivity).
  split; [exact Hin | ].
  exact (@empty_error_body_shows_status Sku srv st rq
           (mkResponse false 503 (Fulfilled []) (Rejected NotAnError))
           Hin eq_refl eq_refl eq_refl).
Defined.

End StatusMessage.

(** ** Stars *)

Section MoreStarFacts.
Import JsNumber.

Lemma ge_rem1_half (q : Q) :
  ge (rem1 (Fin q)) half = Qle_bool (1 # 2) (q - inject_Z (Qtrunc q)).
Proof. unfold ge, rem1, half, lt. apply negb_involutive. Qed.

Lemma Qfloor_nonneg (q : Q) : (0 <= Qfloor q)%Z -> Qle_bool 0 q = true.
Proof.
  intros H. apply Qle_bool_iff.
  apply Qle_trans with (inject_Z (Qfloor q)); [ | apply Qfloor_le].
  change 0%Q with (inject_Z 0). rewrite <- Zle_Qle. exact H.
Qed.

Ltac settle_cmp' :=
  repeat match goal with
    | |- context [(?a <? ?b)%Z] =>
        destruct (Z.ltb_spec a b); try (exfalso; lia)
    | |- context [(?a =? ?b)%Z] =>
        destruct (Z.eqb_spec a b); try (exfalso; lia)
    | |- context [(?a <=? ?b)%Z] =>
        destruct (Z.leb_spec a b); try (exfalso; lia)
    end.

Lemma stars_by_floor (q : Q) :
  Qeq_bool q 0 = false ->
  exists l l',
    IndexPage.renderStars (Some (Fin q)) = IndexPage.Stars l
    /\ SkuPage.renderStars (Some (Fin q)) = SkuPage.Stars l'
    /\ map SkuPage.look l' = l
    /\ count is_filled l + count is_half l + count is_empty_star l = 5
    /\ count is_half l =
       if (0 <=? Qfloor q)%Z && (Qfloor q <=? 4)%Z
          && ge (rem1 (Fin q)) half
       then 1 else 0.
Proof.
  intros Hq. unfold IndexPage.renderStars, SkuPage.renderStars, Number.
  cbn [falsy]. rewrite Hq. do 2 eexists. split; [reflexivity | ].
  split; [reflexivity | ].
  cbn [seq map]. rewrite !lt_ofNat_floor, !strict_eq_ofNat_floor.
  set (f := Qfloor q). set (h := ge (rem1 (Fin q)) half).
  cbn [Z.of_nat Pos.of_succ_nat Pos.succ].
  assert (Hf : (f < 0 \/ f = 0 \/ f = 1 \/ f = 2 \/ f = 3 \/ f = 4 \/ 5 <= f)%Z) by lia.
  destruct Hf as [Hf | [Hf | [Hf | [Hf | [Hf | [Hf | Hf]]]]]];
    settle_cmp'; destruct h; cbn; repeat split; reflexivity.
Qed.

End MoreStarFacts.

(** X12: for a rating other than 0, the five stars of both pages are filled,
    half or empty, and there is a half star, a single one, exactly when
    [floor(rating)] is between 0 and 4 and the fractional part of the rating
    is at least one half. *)
Theorem half_star_rule (q : Q) :
  Qeq_bool q 0 = false ->
  exists l l',
    IndexPage.renderStars (Some (JsNumber.Fin q)) = IndexPage.Stars l
    /\ SkuPage.renderStars (Some (JsNumber.Fin q)) = SkuPage.Stars l'
    /\ map SkuPage.look l' = l
    /\ count is_filled l + count is_half l + count is_empty_star l = 5
    /\ count is_half l =
       if (0 <=? Qfloor q)%Z && (Qfloor q <=? 4)%Z
          && Qle_bool (1 # 2) (q - inject_Z (Qfloor q))
       then 1 else 0.
Proof.
  intros Hq. destruct (@stars_by_floor q Hq) as (l & l' & H1 & H2 & H3 & H4 & H5).
  exists l, l'. repeat split; try assumption.
  rewrite H5, ge_rem1_half. unfold JsNumber.Qtrunc.
  destruct (Z.leb_spec 0 (Qfloor q)) as [Hf | Hf]; [ | reflexivity].
  rewrite (@Qfloor_nonneg q Hf). reflexivity.
Qed.

Lemma half_star_rule_witness :
  Qeq_bool (7 # 2) 0 = false
  /\ exists l,
       IndexPage.renderStars (Some (JsNumber.Fin (7 # 2))) = IndexPage.Stars l
       /\ count is_half l = 1.
Proof.
  split; [reflexivity | ].
  destruct (@half_star_rule (7 # 2) eq_refl) as (l & l' & H1 & _ & _ & _ & H5).
  exists l. split; [exact H1 | exact H5].
Defined.

(** X13: for a whole rating from 1 to 5, both pages show as many filled
    stars as the rating, then empty ones, and no half star. *)
Theorem whole_rating_stars (q : Q) (z : Z) :
  (1 <= z <= 5)%Z -> Qeq q (inject_Z z) ->
  IndexPage.renderStars (Some (JsNumber.Fin q))
  = IndexPage.Stars (repeat IndexPage.star_filled (Z.to_nat z)
                     ++ repeat IndexPage.star_empty (5 - Z.to_nat z))
  /\ exists l', SkuPage.renderStars (Some (JsNumber.Fin q)) = SkuPage.Stars l'
       /\ map SkuPage.look l'
          = repeat IndexPage.star_filled (Z.to_nat z)
            ++ repeat IndexPage.star_empty (5 - Z.to_nat z).
Proof.
  intros Hz Hq.
  assert (Hfloor : Qfloor q = z) by (rewrite Hq; apply Qfloor_Z).
  assert (Hnz : Qeq_bool q 0 = false).
  { apply not_true_is_false. intros H. apply Qeq_bool_eq in H.
    rewrite H in Hq. unfold Qeq in Hq. simpl in Hq. lia. }
  assert (Hhalf : JsNumber.ge (JsNumber.rem1 (JsNumber.Fin q)) JsNumber.half = false).
  { rewrite ge_rem1_half. unfold JsNumber.Qtrunc.
    rewrite (@Qfloor_nonneg q) by (rewrite Hfloor; lia). rewrite Hfloor.
    apply not_true_is_false. intros H. apply Qle_bool_iff in H.
    rewrite Hq in H. unfold Qle, Qminus, Qplus, Qopp, inject_Z in H. simpl in H.
    lia. }
  unfold IndexPage.renderStars, SkuPage.renderStars, JsNumber.Number.
  cbn [JsNumber.falsy]. rewrite Hnz, Hhalf.
  cbn [seq map]. rewrite !lt_ofNat_floor, !strict_eq_ofNat_floor, Hfloor.
  cbn [Z.of_nat Pos.of_succ_nat Pos.succ].
  assert (Hc : (z = 1 \/ z = 2 \/ z = 3 \/ z = 4 \/ z = 5)%Z) by lia.
  destruct Hc as [-> | [-> | [-> | [-> | ->]]]];
    (split; [reflexivity | eexists; split; reflexivity]).
Qed.

Lemma whole_rating_stars_witness :
  (1 <= 4 <= 5)%Z /\ Qeq (8 # 2) (inject_Z 4)
  /\ IndexPage.renderStars (Some (JsNumber.Fin (8 # 2)))
     = IndexPage.Stars
         [IndexPage.star_filled; IndexPage.star_filled; IndexPage.star_filled;
          IndexPage.star_filled; IndexPage.star_empty].
Proof.
  assert (Hz : (1 <= 4 <= 5)%Z) by lia.
  assert (Hq : Qeq (8 # 2) (inject_Z 4)) by reflexivity.
  split; [exact Hz | split; [exact Hq | ]].
  exact (proj1 (@whole_rating_stars (8 # 2) 4%Z Hz Hq)).
Defined.

(** ** Previews, headings and the download *)

Section PageExtras.
Import JsString Page.

(** X16: the preview of a review body in [index.tsx] is the body itself when
    it has at most 250 characters, and its first 250 characters followed by
    three dots otherwise; it never has more than 253 characters and always
    starts like the body. *)
Theorem bodyPreview_bounds (body : jsstring) :
  length (View.bodyPreview body) <= 253
  /\ firstn 250 (View.bodyPreview body) = firstn 250 body
  /\ ((length body <= 250 /\ View.bodyPreview body = body)
      \/ (250 < length body
          /\ View.bodyPreview body = firstn 250 body ++ lit "..."
          /\ length (View.bodyPreview body) = 253)).
Proof.
  unfold View.bodyPreview.
  destruct (Nat.ltb_spec 250 (length body)) as [Hlong | Hshort].
  - assert (Hlen : length (firstn 250 body) = 250)
      by (rewrite length_firstn; lia).
    assert (Hdots : length (lit "...") = 3) by reflexivity.
    split; [rewrite length_app, Hlen, Hdots; lia | ].
    split.
    { rewrite firstn_app, Hlen, firstn_firstn, Nat.sub_diag, Nat.min_id.
      cbn [firstn]. apply app_nil_r. }
    right. split; [exact Hlong | split; [reflexivity | ]].
    rewrite length_app, Hlen, Hdots. reflexivity.
  - rewrite !app_nil_r, !(@firstn_all2 _ 250 body Hshort).
    split; [lia | ]. split; [reflexivity | ].
    left. split; [exact Hshort | reflexivity].
Qed.

Section FileName.
Import Download.

Lemma split_char_first (c : code_unit) (d : jsstring) : forall cur rest,
  Forall (fun x => x <> c) d ->
  nth 0 (split_char c cur (d ++ c :: rest)) [] = cur ++ d.
Proof.
  induction d as [ | x d IH]; intros cur rest H; simpl.
  - rewrite N.eqb_refl, app_nil_r. reflexivity.
  - inversion H as [ | ? ? Hx Hd]; subst.
    apply N.eqb_neq in Hx. rewrite Hx, (IH _ _ Hd), <- app_assoc. reflexivity.
Qed.

Lemma split_char_none (c : code_unit) (d : jsstring) : forall cur,
  Forall (fun x => x <> c) d -> split_char c cur d = [cur ++ d].
Proof.
  induction d as [ | x d IH]; intros cur H; simpl.
  - rewrite app_nil_r. reflexivity.
  - inversion H as [ | ? ? Hx Hd]; subst.
    apply N.eqb_neq in Hx. rewrite Hx, (IH _ Hd), <- app_assoc. reflexivity.
Qed.

End FileName.

(** X17: the name of the downloaded file is [walmart_reviews_], what comes
    before the first [T] of the time stamp, and [.json]; a stamp without
    [T] is taken whole. *)
Theorem fileName_keeps_the_date (date time : jsstring) :
  Forall (fun x => x <> Download.letter_T) date ->
  Download.fileName (date ++ Download.letter_T :: time)
  = lit "walmart_reviews_" ++ date ++ lit ".json"
  /\ Download.fileName date = lit "walmart_reviews_" ++ date ++ lit ".json".
Proof.
  intros H. unfold Download.fileName.
  rewrite (@split_char_first _ date [] time H), (@split_char_none _ date [] H).
  split; reflexivity.
Qed.

Lemma fileName_keeps_the_date_witness :
  Forall (fun x => x <> Download.letter_T) (lit "2025-12-05")
  /\ Download.fileName (lit "2025-12-05T17:55:44.881Z")
     = lit "walmart_reviews_2025-12-05.json".
Proof.
  assert (H : Forall (fun x => x <> Download.letter_T) (lit "2025-12-05"))
    by (repeat constructor; discriminate).
  split; [exact H | ].
  exact (proj1 (@fileName_keeps_the_date (lit "2025-12-05")
                  (lit "17:55:44.881Z") H)).
Defined.

(** X15: after a submission, [handleDownload] does something only if exactly
    one request was sent and was answered by a 2xx response whose body
    parsed; it then offers that very body, through one link that is clicked
    once and removed, and revokes the object URL it created. *)
Theorem download_needs_a_successful_scrape (v : variant) (srv : server)
    (st : State) (url iso : jsstring) :
  Download.handleDownload (data (final (handleSubmit_of v srv) st)) url iso <> [] ->
  exists rq res json,
    sent (handleSubmit_of v srv) st = [rq]
    /\ srv rq = Fulfilled res /\ res_ok res = true
    /\ res_json res = Fulfilled json
    /\ Download.handleDownload (data (final (handleSubmit_of v srv) st)) url iso
       = [ Download.CreateObjectURL json;
           Download.CreateLink url (Download.fileName iso);
           Download.AppendChild; Download.Click; Download.Remove;
           Download.RevokeObjectURL url ].
Proof.
  unfold final, sent.
  destruct (run_submission srv v st) as (w & -> & Hw). cbn [snd].
  destruct Hw as [m | Hne].
  - simpl. congruence.
  - rewrite after_scrape_data, after_scrape_requests.
    destruct (outcome srv _) as [json | e] eqn:E; [ | simpl; congruence].
    unfold Download.handleDownload.
    destruct (View.truthy_value json); [ | congruence].
    intros _. destruct (outcome_inl _ _ E) as (res & Hs & Hok & Hj).
    eexists _, res, json. repeat split; assumption.
Qed.

Lemma download_needs_a_successful_scrape_witness :
  let st := Examples.state_of (lit "5337824985") (JsNumber.ofZ 5) in
  let srv := Examples.srv_json Examples.mixed_response in
  let url := lit "blob:1" in
  let iso := lit "2025-12-05T17:55:44.881Z" in
  Download.handleDownload (data (final (handleSubmit_of Index srv) st)) url iso <> []
  /\ exists rq res json,
       sent (handleSubmit_of Index srv) st = [rq]
       /\ srv rq = Fulfilled res /\ res_ok res = true
       /\ res_json res = Fulfilled json
       /\ Download.handleDownload (data (final (handleSubmit_of Index srv) st)) url iso
          = [ Download.CreateObjectURL json;
              Download.CreateLink url (Download.fileName iso);
              Download.AppendChild; Download.Click; Download.Remove;
              Download.RevokeObjectURL url ].
Proof.
  intros st srv url iso.
  assert (H : Download.handleDownload
                (data (final (handleSubmit_of Index srv) st)) url iso <> [])
    by discriminate.
  split; [exact H | ].
  exact (@download_needs_a_successful_scrape Index srv st url iso H).
Defined.

(** X19: the heading of a product card is never empty: it is the product
    title when there is a non-empty one, and [Item] followed by the
    identifier when the title is null or empty. *)
Theorem productHeading_nonempty (title : option jsstring) (item_id : jsstring) :
  View.productHeading title item_id <> []
  /\ ((exists t, title = Some t /\ t <> []
                 /\ View.productHeading title item_id = t)
      \/ ((title = None \/ title = Some [])
          /\ View.productHeading title item_id = lit "Item " ++ item_id)).
Proof.
  unfold View.productHeading.
  destruct title as [[ | c t] | ]; (split; [simpl; discriminate | ]).
  - right. split; [right | ]; reflexivity.
  - left. exists (c :: t). repeat split. discriminate.
  - right. split; [left | ]; reflexivity.
Qed.

(** X14: every request the validating page sends carries between 1 and 10
    identifiers, all of which passed its check; it never sends an empty
    list, more than 10 identifiers, or an identifier it holds invalid. *)
Theorem sku_page_sends_only_checked_batches (srv : server) (st : State)
    (rq : Request) :
  In rq (sent (SkuPage.handleSubmit srv) st) ->
  rq = mkRequest SkuPage.endpoint
         (scrape_body (tokenize (itemIdsText st)) (maxReviews st))
  /\ 1 <= length (tokenize (itemIdsText st)) <= 10
  /\ Forall (fun id => Validator.invalidId id = false) (tokenize (itemIdsText st)).
Proof.
  unfold sent. rewrite run_Sku. cbn [snd].
  destruct (Nat.eqb_spec (length (tokenize (itemIdsText st))) 0) as [E0 | E0];
    [intros [] | ].
  destruct (Nat.ltb_spec 10 (length (tokenize (itemIdsText st)))) as [E1 | E1];
    [intros [] | ].
  destruct (Validator.invalidIds (tokenize (itemIdsText st))) eqn:E2;
    [ | intros []].
  rewrite after_scrape_requests. intros [<- | []].
  split; [reflexivity | split; [lia | ]].
  apply invalidIds_nil. exact E2.
Qed.

Lemma sku_page_sends_only_checked_batches_witness :
  let st := Examples.state_of (lit "5337824985 6000206317264") (JsNumber.ofZ 5) in
  let rq := mkRequest SkuPage.endpoint
              (scrape_body [lit "5337824985"; lit "6000206317264"]
                 (JsNumber.ofZ 5)) in
  In rq (sent (SkuPage.handleSubmit Examples.srv_down) st)
  /\ 1 <= length (tokenize (itemIdsText st)) <= 10
  /\ Forall (fun id => Validator.invalidId id = false) (tokenize (itemIdsText st)).
Proof.
  intros st rq.
  assert (Hin : In rq (sent (SkuPage.handleSubmit Examples.srv_down) st))
    by (left; reflexivity).
  split; [exact Hin | ].
  exact (proj2 (@sku_page_sends_only_checked_batches Examples.srv_down st rq Hin)).
Defined.

End PageExtras.

(* ================================================================= *)
(** * The validator at the inputs where it departs from the rule *)

(** C1, the code at the failing inputs: [abc-de] (5 characters once the dash
    is stripped) and nineteen dashes followed by [Z] (1 character once
    stripped) fail the format rule, and the check of the page, which
    measures the identifier as typed, accepts both. *)
Lemma invalidId_measures_unstripped_length :
  Validator.invalidId (JsString.lit "abc-de") = false
  /\ Validator.cleaned (JsString.lit "abc-de") = JsString.lit "abcde"
  /\ ~ Validator.spec_format_ok (JsString.lit "abc-de")
  /\ Validator.invalidId (JsString.lit "-------------------Z") = false
  /\ Validator.cleaned (JsString.lit "-------------------Z") = JsString.lit "Z"
  /\ ~ Validator.spec_format_ok (JsString.lit "-------------------Z").
Proof.
  split; [reflexivity | split; [reflexivity | split]].
  { intros (Hmin & _). vm_compute in Hmin. lia. }
  split; [reflexivity | split; [reflexivity | ]].
  intros (Hmin & _). vm_compute in Hmin. lia.
Qed.

(* ================================================================= *)
(** * The form *)

Section FormFacts.
Import Page.

Lemma reachable_finite (v : variant) (st : State) :
  Form.reachable v st -> exists q, maxReviews st = JsNumber.Fin q.
Proof.
  induction 1 as [ | st text _ IH | st value _ IH | st srv _ IH].
  - destruct v; eexists; reflexivity.
  - exact IH.
  - destruct value; eexists; reflexivity.
  - destruct IH as (q & Hq). exists q. rewrite <- Hq.
    unfold final, run, Form.submit. cbn [page].
    destruct (Form.input_valid v _); [ | reflexivity].
    destruct (run_submission srv v st) as (w & E & Hw).
    unfold run in E. rewrite E. cbn [snd].
    destruct Hw as [m | Hne]; [reflexivity | ].
    unfold after_scrape. destruct (outcome srv _); reflexivity.
Qed.

Lemma input_valid_integer (v : variant) (q : Q) :
  Form.input_valid v (Some q) = true ->
  exists z : Z, (1 <= z <= Form.max_reviews v)%Z /\ Qeq q (inject_Z z).
Proof.
  unfold Form.input_valid, Form.min_reviews. intros H.
  apply andb_true_iff in H. destruct H as [H Hstep].
  apply andb_true_iff in H. destruct H as [Hmin Hmax].
  apply Qle_bool_iff in Hmin, Hmax. apply Qeq_bool_eq in Hstep.
  set (k := Qfloor (q - inject_Z 1)) in *.
  assert (Hq : Qeq q (inject_Z (k + 1))).
  { rewrite inject_Z_plus, <- Hstep. ring. }
  exists (k + 1)%Z. split; [ | exact Hq].
  rewrite Hq in Hmin, Hmax. rewrite <- Zle_Qle in Hmin, Hmax. lia.
Qed.

Lemma max_reviews_bound (v : variant) : (Form.max_reviews v <= 10000)%Z.
Proof. destruct v; simpl; lia. Qed.

End FormFacts.

Section FormClaim.
Import Page.

(** C5: in every request that a submission of the form sends to the scrape
    endpoint, from any state the page can reach, [max_reviews_per_item] is
    an integer between 1 and 10000: the browser runs the handler only when
    the number input satisfies its [min], [max] and step. *)
Theorem sent_max_reviews_in_range (v : variant) (srv : server) (st : State)
    (rq : Request) :
  Form.reachable v st ->
  In rq (sent (Form.submit v srv) st) ->
  exists value,
    Json.get "max_reviews_per_item" (req_body rq) = Some value
    /\ Json.integer_in 1 10000 value.
Proof.
  intros Hreach Hin.
  destruct (reachable_finite Hreach) as (q & Hq).
  unfold sent, run, Form.submit in Hin. cbn [page] in Hin. rewrite Hq in Hin.
  cbn [Form.input_value] in Hin.
  destruct (Form.input_valid v (Some q)) eqn:Hvalid; [ | destruct Hin].
  change (In rq (sent (handleSubmit_of v srv) st)) in Hin.
  apply sent_request in Hin. subst rq. cbn [req_body].
  rewrite get_max_reviews, Hq. eexists. split; [reflexivity | ].
  destruct (input_valid_integer v q Hvalid) as (z & Hz & Hzq).
  exists z. split; [ | exact Hzq].
  pose proof (max_reviews_bound v). lia.
Qed.

Example form_blocks_invalid_numbers :
  map (fun value =>
         sent (Form.submit Sku Examples.srv_down)
              (Form.onChangeMaxReviews value
                 (Form.onChangeItemIds (JsString.lit "5337824985")
                    (Form.initial Sku))))
      [None; Some 0%Q; Some (5 # 2)%Q; Some 10001%Q]
  = [[]; []; []; []].
Proof. reflexivity. Qed.

Lemma sent_max_reviews_in_range_witness :
  let st := Form.onChangeMaxReviews (Some (50 # 1)%Q)
              (Form.onChangeItemIds (JsString.lit "5337824985") (Form.initial Sku)) in
  let rq := mkRequest SkuPage.endpoint
              (scrape_body [JsString.lit "5337824985"] (JsNumber.Fin (50 # 1))) in
  Form.reachable Sku st
  /\ In rq (sent (Form.submit Sku Examples.srv_down) st)
  /\ exists value,
       Json.get "max_reviews_per_item" (req_body rq) = Some value
       /\ Json.integer_in 1 10000 value.
Proof.
  intros st rq.
  assert (Hreach : Form.reachable Sku st)
    by (apply Form.reach_max, Form.reach_ids, Form.reach_initial).
  assert (Hin : In rq (sent (Form.submit Sku Examples.srv_down) st))
    by (left; reflexivity).
  split; [exact Hreach | split; [exact Hin | ]].
  exact (@sent_max_reviews_in_range Sku Examples.srv_down st rq Hreach Hin).
Defined.

End FormClaim.

(* ================================================================= *)
(** * The batch engine of the specification *)

Section EngineFacts.
Import JsString Engine Json.

Variable placeholder : jsstring.
Variable normalize_date : jsstring -> option jsstring.
Variable load : jsstring -> nat -> ErrorKind + ProductSummary * list RawReviewBlock.
Variable url_of : jsstring -> jsstring.
Variable now : jsstring.









End EngineFacts.

Section EngineClaims.
Import JsString Engine Json.

Variable placeholder : jsstring.
Variable normalize_date : jsstring -> option jsstring.
Variable load : jsstring -> nat -> ErrorKind + ProductSummary * list RawReviewBlock.
Variable url_of : jsstring -> jsstring.
Variable now : jsstring.



(** C2 (on the engine of the specification): for the identifiers
    [5337824985] and [bad] and at most 5 reviews per item, when the load of
    [5337824985] succeeds, [errors] is the single entry of [bad] with
    InvalidFormat and [results] the single entry of [5337824985], with the
    first reviews parsed, at most 5. *)
Theorem mixed_batch_outcome (summary : ProductSummary)
    (blocks : list RawReviewBlock) :
  load (lit "5337824985") 5 = inr (summary, blocks) ->
  exists p,
    scrapeBatch placeholder normalize_date load url_of now
      [lit "5337824985"; lit "bad"] 5
    = mkBatch [p] [mkError (lit "bad") InvalidFormat]
    /\ item_id p = lit "5337824985"
    /\ reviews p = firstn 5 (parse_all placeholder normalize_date blocks)
    /\ length (reviews p) <= 5
    /\ ErrorResult_to_json (mkError (lit "bad") InvalidFormat)
       = JObject [ (lit "item_id", JString (lit "bad"));
                   (lit "error", JString (lit "InvalidFormat")) ].
Proof.
  intros Hload. eexists. split.
  - unfold scrapeBatch. cbn [flat_map]. unfold task.
    replace (validate (lit "5337824985")) with true by reflexivity.
    replace (validate (lit "bad")) with false by reflexivity.
    rewrite Hload. reflexivity.
  - split; [reflexivity | ]. split; [reflexivity | ].
    split; [apply firstn_le_length | reflexivity].
Qed.

End EngineClaims.

Section EngineWitnesses.
Import JsString Engine Json.


Lemma mixed_batch_outcome_witness :
  EngineExamples.load_seven (lit "5337824985") 5
  = inr (EngineExamples.no_summary, EngineExamples.seven_blocks)
  /\ exists p,
       scrapeBatch EngineExamples.anonymous EngineExamples.no_dates
         EngineExamples.load_seven EngineExamples.walmart_url EngineExamples.noon
         [lit "5337824985"; lit "bad"] 5
       = mkBatch [p] [mkError (lit "bad") InvalidFormat]
       /\ item_id p = lit "5337824985"
       /\ reviews p
          = firstn 5 (parse_all EngineExamples.anonymous EngineExamples.no_dates
                        EngineExamples.seven_blocks)
       /\ length (reviews p) <= 5
       /\ ErrorResult_to_json (mkError (lit "bad") InvalidFormat)
          = JObject [ (lit "item_id", JString (lit "bad"));
                      (lit "error", JString (lit "InvalidFormat")) ].
Proof.
  split; [reflexivity | ].
  exact (@mixed_batch_outcome EngineExamples.anonymous EngineExamples.no_dates
           EngineExamples.load_seven EngineExamples.walmart_url EngineExamples.noon
           EngineExamples.no_summary EngineExamples.seven_blocks eq_refl).
Defined.

Example seven_blocks_give_five_reviews :
  map author_name
    (reviews
       (aggregate EngineExamples.walmart_url EngineExamples.noon (lit "5337824985")
          EngineExamples.no_summary
          (parse_all EngineExamples.anonymous EngineExamples.no_dates
             EngineExamples.seven_blocks) 5))
  = [lit "Ana"; lit "Anonymous"; lit "Li"; lit "Noor"; lit "Sam"].
Proof. reflexivity. Qed.

End EngineWitnesses.

(* ================================================================= *)
(** * The page after a submission *)

Section AfterSubmission.
Import JsString Page.

(** X4: either the textarea holds nothing but white space and commas, and
    both pages send nothing and ask for at least one item ID, or it holds
    another character, and [index.tsx] sends one request with the
    identifiers read, at least one. *)
Theorem blank_text_is_turned_down (srv : server) (st : State) :
  (Forall (fun c => isSeparator c = true) (itemIdsText st)
   /\ sent (IndexPage.handleSubmit srv) st = []
   /\ sent (SkuPage.handleSubmit srv) st = []
   /\ error (final (IndexPage.handleSubmit srv) st) = Some msg_empty
   /\ error (final (SkuPage.handleSubmit srv) st) = Some msg_empty)
  \/ (~ Forall (fun c => isSeparator c = true) (itemIdsText st)
      /\ tokenize (itemIdsText st) <> []
      /\ sent (IndexPage.handleSubmit srv) st
         = [mkRequest IndexPage.endpoint
              (scrape_body (tokenize (itemIdsText st)) (maxReviews st))]).
Proof.
  unfold sent, final. rewrite run_Index, run_Sku. cbn [snd].
  pose proof (tokenize_blank_iff (itemIdsText st)) as Hblank.
  destruct (tokenize (itemIdsText st)) as [ | id ids] eqn:E.
  - left. split; [apply Hblank; reflexivity | ]. repeat split.
  - right. split; [ | split; [discriminate | ]].
    + intros H. apply Hblank in H. discriminate.
    + cbn [length Nat.eqb]. apply after_scrape_requests.
Qed.

(** X9: after any submission, in either page, either an error is set and
    [data] is null, or no error is set and [data] is the value that [json()]
    of an ok response resolved to, whatever it is. *)
Theorem error_or_response_body (v : variant) (srv : server) (st : State) :
  (data (final (handleSubmit_of v srv) st) = None
   /\ exists m, error (final (handleSubmit_of v srv) st) = Some m)
  \/ (error (final (handleSubmit_of v srv) st) = None
      /\ exists rq res json,
           sent (handleSubmit_of v srv) st = [rq]
           /\ srv rq = Fulfilled res /\ res_ok res = true
           /\ res_json res = Fulfilled json
           /\ data (final (handleSubmit_of v srv) st) = Some json).
Proof.
  unfold final, sent.
  destruct (run_submission srv v st) as (w & -> & Hw). cbn [snd].
  destruct Hw as [m | Hne].
  - left. simpl. eauto.
  - rewrite after_scrape_data, after_scrape_error, after_scrape_requests.
    destruct (outcome srv _) as [json | e] eqn:E; [right | left; eauto].
    split; [reflexivity | ].
    destruct (outcome_inl _ _ E) as (res & Hs & Hok & Hj).
    eexists _, res, json. repeat split; assumption.
Qed.

(** X18: after a submission made from a page that is not loading, the
    validating page has no spinner, the submit button is enabled, the
    download button is enabled exactly when the condition of the results
    block holds, and one of three cases holds: an error was set and its box
    shows; or no error was set and the condition of the results holds; or
    neither shows, which happens only when an ok response resolved to a
    falsy body. *)
Theorem sku_page_boxes (srv : server) (st : State) :
  loading st = false ->
  View.loadingBoxShown (final (SkuPage.handleSubmit srv) st) = false
  /\ View.submitDisabled (final (SkuPage.handleSubmit srv) st) = false
  /\ View.downloadDisabled (final (SkuPage.handleSubmit srv) st)
     = negb (View.resultsGuard (final (SkuPage.handleSubmit srv) st))
  /\ ((View.errorBoxShown (final (SkuPage.handleSubmit srv) st) = true
       /\ View.resultsGuard (final (SkuPage.handleSubmit srv) st) = false
       /\ exists m, error (final (SkuPage.handleSubmit srv) st) = Some m)
      \/ (View.errorBoxShown (final (SkuPage.handleSubmit srv) st) = false
          /\ View.resultsGuard (final (SkuPage.handleSubmit srv) st) = true
          /\ error (final (SkuPage.handleSubmit srv) st) = None)
      \/ (View.errorBoxShown (final (SkuPage.handleSubmit srv) st) = false
          /\ View.resultsGuard (final (SkuPage.handleSubmit srv) st) = false
          /\ exists rq res json,
               sent (SkuPage.handleSubmit srv) st = [rq]
               /\ srv rq = Fulfilled res /\ res_ok res = true
               /\ res_json res = Fulfilled json
               /\ View.truthy_value json = false)).
Proof.
  intros Hl. unfold final, sent. rewrite run_Sku. cbn [snd].
  unfold View.errorBoxShown, View.resultsGuard, View.loadingBoxShown,
    View.submitDisabled, View.downloadDisabled, View.dataTruthy.
  destruct (_ =? 0).
  { cbn. rewrite Hl. repeat split. left. repeat split. eauto. }
  destruct (10 <? _).
  { cbn. rewrite Hl. repeat split. left. repeat split. eauto. }
  destruct (Validator.invalidIds _).
  2:{ cbn. rewrite Hl. repeat split. left. repeat split. eauto. }
  rewrite after_scrape_data, after_scrape_error, after_scrape_loading,
    after_scrape_requests.
  destruct (outcome srv _) as [json | e] eqn:E.
  - split; [reflexivity | split; [reflexivity | ]].
    cbn [negb]. rewrite andb_true_r, orb_false_r. split; [reflexivity | ].
    destruct (View.truthy_value json) eqn:Ht.
    + right. left. repeat split.
    + right. right. split; [reflexivity | split; [reflexivity | ]].
      destruct (outcome_inl _ _ E) as (res & Hs & Hok & Hj).
      eexists _, res, json. repeat split; assumption.
  - split; [reflexivity | split; [reflexivity | split; [reflexivity | ]]].
    left. rewrite (proj2 (truthy_nonempty _) (Sku_errorMessage_nonempty e)).
    repeat split. eauto.
Qed.

Lemma sku_page_boxes_witness :
  let st := Examples.stale_state in
  loading st = false
  /\ View.errorBoxShown (final (SkuPage.handleSubmit Examples.srv_error) st) = true
  /\ View.downloadDisabled (final (SkuPage.handleSubmit Examples.srv_error) st) = true.
Proof.
  intros st.
  destruct (@sku_page_boxes Examples.srv_error st eq_refl) as (_ & _ & Hd & _).
  split; [reflexivity | split; [reflexivity | ]].
  rewrite Hd. reflexivity.
Defined.

End AfterSubmission.

